(** * The weather-station observer program (src/app.py), embedded in Rocq

    The Python program declares a subject class [WeatherStation], two
    observer classes [CurrentConditionsDisplay] and [StatisticsDisplay], and
    the abstract interfaces [Subject] and [Observer].  Every method is
    translated to a state transformer over a [World] that holds the Python
    objects the methods touch:

    - the list object bound to the class attribute [WeatherStation._observers]
      (app.py line 47), created once when the class body is executed;
    - the instance attribute [_temperature] of each station, created by the
      assignment [self._temperature = temperature] (line 83);
    - the list object bound to the class attribute
      [StatisticsDisplay._temperatures] (line 138);
    - what [print] wrote to standard output.  A [print] whose message holds
      an [int] of more than 4300 digits raises [ValueError] and writes
      nothing.

    Python [int] is [Z]; Python [None] is [None : option Z]; the [float] that
    [/] produces is an IEEE binary64 number ([spec_float] at precision 53).
    A method ends by returning or by raising; the loop of [notify_observers]
    runs on fuel, because a callback may append to the list it walks.

    [Observer] is an abstract class: besides the two displays, a program may
    attach observers of classes of its own.  Such a class is given by the
    calls its [update] makes on the subject: [add_observer],
    [remove_observer], reading [temperature], raising.

    A ghost log records every call of [update], so that who was notified,
    and in which order, can be stated. *)

From stdpp Require Import gmap list strings pretty.
From Stdlib Require Import ZArith SpecFloat.

Local Open Scope Z_scope.

(** ** Exceptions and results *)

Inductive Exn : Set :=
| ValueError          (* list.remove(x): x not in list; str of a too long int *)
| TypeError           (* unsupported operand type(s) for +: 'int' and 'NoneType' *)
| ZeroDivisionError   (* division by zero *)
| OverflowError       (* integer division result too large for a float *)
| RuntimeError.       (* raised by a client-written observer *)

Global Instance Exn_eq_dec : EqDecision Exn.
Proof. solve_decision. Defined.

Inductive result (A : Type) : Type :=
| Ok (a : A)
| Err (e : Exn).
Arguments Ok {A} a.
Arguments Err {A} e.

Definition rbind {A B : Type} (r : result A) (k : A -> result B) : result B :=
  match r with
  | Ok a => k a
  | Err e => Err e
  end.

Notation "x <- r ;; k" := (rbind r (fun x => k))
  (at level 100, r at next level, right associativity).

(** ** Python built-ins used by the program *)

Module Py.

(** [list.remove(x)]: delete the first item equal to [x]; [ValueError] when
    there is none.  The observer classes define no [__eq__], so equality of
    two observers is identity of the objects. *)
Fixpoint list_remove (x : nat) (l : list nat) : result (list nat) :=
  match l with
  | [] => Err ValueError
  | y :: l' =>
      if decide (y = x) then Ok l'
      else l'' <- list_remove x l' ;; Ok (y :: l'')
  end.

(** [a + b] on an [int] accumulator and a list item that may be [None]. *)
Definition add (acc : Z) (item : option Z) : result Z :=
  match item with
  | Some z => Ok (acc + z)
  | None => Err TypeError
  end.

(** [sum(l)]: starts from [0] and adds the items from left to right. *)
Fixpoint sum_from (acc : Z) (l : list (option Z)) : result Z :=
  match l with
  | [] => Ok acc
  | item :: l' => acc' <- add acc item ;; sum_from acc' l'
  end.

Definition sum (l : list (option Z)) : result Z := sum_from 0 l.

(** The scan of [max(l)] and [min(l)] over the items after the first:
    [pick] keeps the better of the best item so far and the next one.
    Comparing an [int] with [None] is a [TypeError]. *)
Fixpoint extremum (pick : Z -> Z -> Z) (best : Z) (l : list (option Z)) : result Z :=
  match l with
  | [] => Ok best
  | Some z :: l' => extremum pick (pick best z) l'
  | None :: _ => Err TypeError
  end.

(** [max(l)] and [min(l)]: [ValueError] on an empty list.  In the program
    both run only after [sum(l)] has returned, that is on a list of [int]s
    (on a list that holds [None], [sum] has raised before). *)
Definition max (l : list (option Z)) : result Z :=
  match l with
  | [] => Err ValueError
  | Some z :: l' => extremum Z.max z l'
  | None :: _ => Err TypeError
  end.

Definition min (l : list (option Z)) : result Z :=
  match l with
  | [] => Err ValueError
  | Some z :: l' => extremum Z.min z l'
  | None :: _ => Err TypeError
  end.

(** *** [int / int] and the format specification [.1f] *)

Definition prec : Z := 53.
Definition emax : Z := 1024.

(** True division of two [int]s: the quotient correctly rounded to
    binary64 (round to nearest, ties to even); a zero divisor raises
    [ZeroDivisionError], a quotient beyond the largest float raises
    [OverflowError]. *)
Definition true_divide (a b : Z) : result spec_float :=
  match a, b with
  | _, Z0 => Err ZeroDivisionError
  | Z0, _ => Ok (S754_zero (b <? 0))
  | _, _ =>
      let '(mz, ez, lz) := SFdiv_core_binary prec emax (Z.abs a) 0 (Z.abs b) 0 in
      match binary_round_aux prec emax (xorb (a <? 0) (b <? 0)) mz ez lz with
      | S754_infinity _ => Err OverflowError
      | f => Ok f
      end
  end.

(** [n / d] rounded to the nearest integer, ties to the even one ([d > 0]). *)
Definition round_half_even (n d : Z) : Z :=
  let q := n / d in
  match (2 * (n mod d)) ?= d with
  | Lt => q
  | Eq => if Z.even q then q else q + 1
  | Gt => q + 1
  end.

(** The magnitude [m * 2^e] in tenths, rounded from its exact value. *)
Definition tenths (m : positive) (e : Z) : Z :=
  match e with
  | Zneg p => round_half_even (10 * Zpos m) (2 ^ Zpos p)
  | _ => 10 * Zpos m * 2 ^ e
  end.

Definition sign_text (s : bool) : string := if s then "-" else "".

(** [format(x, ".1f")]: one digit after the point. *)
Definition format_1f (x : spec_float) : string :=
  match x with
  | S754_zero s => sign_text s +:+ "0.0"
  | S754_finite s m e =>
      let t := tenths m e in
      sign_text s +:+ pretty (t / 10) +:+ "." +:+ pretty (t mod 10)
  | S754_infinity s => sign_text s +:+ "inf"
  | S754_nan => "nan"
  end.

(** *** [str] of an [int] *)

(** [sys.int_max_str_digits]: the interpreter converts no [int] of more
    decimal digits than this to a string. *)
Definition int_max_str_digits : Z := 4300.

Definition str_limit : Z := Eval vm_compute in 10 ^ int_max_str_digits.

(** Whether [str(z)], and so [print(z)] and [z] in an f-string, succeeds:
    the digits of [z], the sign apart, are at most [int_max_str_digits].
    Otherwise the conversion raises [ValueError]. *)
Definition fits (z : Z) : bool := Z.abs z <? str_limit.
Arguments fits : simpl never.

End Py.

(** ** Objects *)

(** References to objects; two references are the same object exactly when
    the numbers are equal. *)
Abbreviation StationId := nat (only parsing).
Abbreviation ObserverId := nat (only parsing).

(** What [update] may be handed: a [WeatherStation], or some other
    implementation of [Subject]. *)
Inductive SubjectRef : Set :=
| WeatherStationRef (s : StationId)
| OtherSubjectRef.

(** A line written by [print]. *)
Inductive Line : Set :=
| ObserverAdded                         (* line 57 *)
| ObserverRemoved                       (* line 66 *)
| Notifying                             (* line 72 *)
| TemperatureChanged (t : Z)            (* line 82 *)
| CurrentTemperature (t : option Z)     (* line 127 *)
| Statistics (avg : string) (mx mn : Z) (* line 157 *)
| ClientPrinted (t : option Z).         (* a client-written observer *)

(** The two bytes of the degree sign in UTF-8, and the letter C. *)
Definition degrees_C : string :=
  String (Ascii.ascii_of_nat 194) (String (Ascii.ascii_of_nat 176) "C").

Definition render_value (t : option Z) : string :=
  match t with
  | Some z => pretty z
  | None => "None"
  end.

(** Whether the message of a [print] call can be built: every [int] in it
    has to be converted to a string.  [None] and a [float] always can. *)
Definition printable_value (t : option Z) : bool :=
  match t with
  | Some z => Py.fits z
  | None => true
  end.

Definition printable (l : Line) : bool :=
  match l with
  | ObserverAdded | ObserverRemoved | Notifying => true
  | TemperatureChanged t => Py.fits t
  | CurrentTemperature t | ClientPrinted t => printable_value t
  | Statistics _ mx mn => Py.fits mx && Py.fits mn
  end.

(** The characters each [print] call writes (without the final newline),
    for a message that can be built. *)
Definition render (l : Line) : string :=
  match l with
  | ObserverAdded => "WeatherStation: New observer added."
  | ObserverRemoved => "WeatherStation: An observer has been removed."
  | Notifying => "WeatherStation: Notifying all observers..."
  | TemperatureChanged t =>
      String (Ascii.ascii_of_nat 10)
        ("WeatherStation: Temperature changed to " +:+ pretty t +:+ degrees_C)
  | CurrentTemperature t =>
      "CurrentConditionsDisplay: The current temperature is " +:+ render_value t +:+ degrees_C
  | Statistics avg mx mn =>
      "StatisticsDisplay: Avg/Max/Min temperatures = "
        +:+ avg +:+ "/" +:+ pretty mx +:+ "/" +:+ pretty mn +:+ degrees_C
  | ClientPrinted t => render_value t
  end.

(** The body of the [update] method of an observer class written by a
    client of the module: a sequence of calls on the subject it is given. *)
Inductive Action : Set :=
| DoAddObserver (o : ObserverId)      (* subject.add_observer(o) *)
| DoRemoveObserver (o : ObserverId)   (* subject.remove_observer(o) *)
| DoPrintTemperature                  (* print(subject.temperature) *)
| DoRaise.                            (* raise RuntimeError *)

Inductive ObserverClass : Set :=
| CurrentConditionsDisplay
| StatisticsDisplay
| ClientObserver (body : list Action).

(** ** The world *)

Record World : Type := mkWorld {
  (** the list bound to [WeatherStation._observers] by the class body *)
  WeatherStation_observers : list ObserverId;
  (** [_temperature] in the [__dict__] of each station that has one *)
  instance_temperature : gmap nat Z;
  (** the list bound to [StatisticsDisplay._temperatures] by the class body *)
  StatisticsDisplay_temperatures : list (option Z);
  (** standard output, oldest line first *)
  stdout : list Line;
  (** ghost: every call [observer.update(subject)] made so far, in order *)
  calls : list (ObserverId * SubjectRef)
}.

(** The world right after the module has been loaded: both class-level lists
    are empty and no instance has an attribute of its own. *)
Definition initial_world : World :=
  mkWorld [] ∅ [] [] [].

Inductive Status : Set :=
| Returned
| Raised (e : Exn)
| OutOfFuel.

Global Instance Status_eq_dec : EqDecision Status.
Proof. solve_decision. Defined.

Definition Outcome : Type := Status * World.
Definition Method : Type := World -> Outcome.

Definition ret : Method := fun w => (Returned, w).
Definition raise (e : Exn) : Method := fun w => (Raised e, w).

Definition and_then (f g : Method) : Method :=
  fun w =>
    match f w with
    | (Returned, w') => g w'
    | stopped => stopped
    end.

Notation "f ;;; g" := (and_then f g) (at level 61, left associativity).

(** [print(message)]: the message is built first, which raises
    [ValueError] when an [int] in it is too long, and then written. *)
Definition print (l : Line) : Method :=
  fun w =>
    if printable l then
      (Returned,
       mkWorld (WeatherStation_observers w) (instance_temperature w)
               (StatisticsDisplay_temperatures w) (stdout w ++ [l]) (calls w))
    else (Raised ValueError, w).

Definition log_call (o : ObserverId) (s : SubjectRef) : Method :=
  fun w =>
    (Returned,
     mkWorld (WeatherStation_observers w) (instance_temperature w)
             (StatisticsDisplay_temperatures w) (stdout w) (calls w ++ [(o, s)])).

(** ** The classes *)

Section Program.

(** The class of every observer object the client program has created. *)
Variable class_of : ObserverId -> ObserverClass.

(** *** class WeatherStation *)

(** [self._observers].  No method of the class binds [_observers] on an
    instance and there is no [__init__], so for every [self] the attribute
    lookup ends at the class attribute: the one list object of line 47. *)
Definition _observers (self : StationId) (w : World) : list ObserverId :=
  WeatherStation_observers w.

(** In-place mutation of the list that [self._observers] evaluates to. *)
Definition mutate_observers (self : StationId) (l : list ObserverId) (w : World) : World :=
  mkWorld l (instance_temperature w) (StatisticsDisplay_temperatures w)
          (stdout w) (calls w).

(** The class attribute [_temperature] of line 48. *)
Definition WeatherStation_temperature : option Z := None.

(** [self._temperature]: the instance attribute when line 83 has created
    one, the class attribute otherwise. *)
Definition _temperature (self : StationId) (w : World) : option Z :=
  match instance_temperature w !! self with
  | Some t => Some t
  | None => WeatherStation_temperature
  end.

(** The property [temperature] (lines 86-93). *)
Definition temperature (self : StationId) (w : World) : option Z :=
  _temperature self w.

(** [self._temperature = temperature] (line 83). *)
Definition assign_temperature (self : StationId) (t : Z) : Method :=
  fun w =>
    (Returned,
     mkWorld (WeatherStation_observers w) (<[self := t]> (instance_temperature w))
             (StatisticsDisplay_temperatures w) (stdout w) (calls w)).

(** [self._observers.append(observer)] (line 56). *)
Definition append_observer (self : StationId) (observer : ObserverId) : Method :=
  fun w => (Returned, mutate_observers self (_observers self w ++ [observer]) w).

(** Lines 50-57. *)
Definition add_observer (self : StationId) (observer : ObserverId) : Method :=
  append_observer self observer ;;; print ObserverAdded.

(** [self._observers.remove(observer)] (line 65). *)
Definition remove_listed_observer (self : StationId) (observer : ObserverId) : Method :=
  fun w =>
    match Py.list_remove observer (_observers self w) with
    | Ok l => (Returned, mutate_observers self l w)
    | Err e => (Raised e, w)
    end.

(** Lines 59-66. *)
Definition remove_observer (self : StationId) (observer : ObserverId) : Method :=
  remove_listed_observer self observer ;;; print ObserverRemoved.

(** *** class CurrentConditionsDisplay (lines 120-127) *)
Definition CurrentConditionsDisplay_update (subject : SubjectRef) : Method :=
  match subject with
  | WeatherStationRef s => fun w => print (CurrentTemperature (temperature s w)) w
  | OtherSubjectRef => ret
  end.

(** *** class StatisticsDisplay *)

(** [self._temperatures]: as for [_observers], the lookup always ends at
    the class attribute, the one list object of line 138. *)
Definition _temperatures (self : ObserverId) (w : World) : list (option Z) :=
  StatisticsDisplay_temperatures w.

Definition mutate_temperatures (self : ObserverId) (l : list (option Z)) (w : World) : World :=
  mkWorld (WeatherStation_observers w) (instance_temperature w) l
          (stdout w) (calls w).

(** Lines 154-156 and the values line 157 puts in its message, as a
    function of the list [self._temperatures]: the line to print, or the
    exception raised by the sum, the division, [max] or [min]. *)
Definition statistics_line (temps : list (option Z)) : result Line :=
  total <- Py.sum temps ;;
  avg_temp <- Py.true_divide total (Z.of_nat (length temps)) ;;
  max_temp <- Py.max temps ;;
  min_temp <- Py.min temps ;;
  Ok (Statistics (Py.format_1f avg_temp) max_temp min_temp).

(** Lines 150-157: the statistics, then the [print] of line 157. *)
Definition _display_statistics (self : ObserverId) : Method :=
  fun w =>
    match statistics_line (_temperatures self w) with
    | Ok l => print l w
    | Err e => (Raised e, w)
    end.

(** [self._temperatures.append(subject.temperature)] (line 147). *)
Definition append_temperature (self : ObserverId) (s : StationId) : Method :=
  fun w =>
    (Returned, mutate_temperatures self (_temperatures self w ++ [temperature s w]) w).

(** Lines 140-148. *)
Definition StatisticsDisplay_update (self : ObserverId) (subject : SubjectRef) : Method :=
  match subject with
  | WeatherStationRef s => append_temperature self s ;;; _display_statistics self
  | OtherSubjectRef => ret
  end.

(** *** Observers written by a client *)

Definition run_action (s : StationId) (a : Action) : Method :=
  match a with
  | DoAddObserver o => add_observer s o
  | DoRemoveObserver o => remove_observer s o
  | DoPrintTemperature => fun w => print (ClientPrinted (temperature s w)) w
  | DoRaise => raise RuntimeError
  end.

Fixpoint run_actions (s : StationId) (body : list Action) : Method :=
  match body with
  | [] => ret
  | a :: body' => run_action s a ;;; run_actions s body'
  end.

Definition ClientObserver_update (body : list Action) (subject : SubjectRef) : Method :=
  match subject with
  | WeatherStationRef s => run_actions s body
  | OtherSubjectRef => ret
  end.

(** *** Dynamic dispatch of [observer.update(subject)] *)
Definition dispatch_update (observer : ObserverId) (subject : SubjectRef) : Method :=
  match class_of observer with
  | CurrentConditionsDisplay => CurrentConditionsDisplay_update subject
  | StatisticsDisplay => StatisticsDisplay_update observer subject
  | ClientObserver body => ClientObserver_update body subject
  end.

(** The call [observer.update(subject)]: it is entered in the ghost log,
    then the method of the observer's class runs. *)
Definition update (observer : ObserverId) (subject : SubjectRef) : Method :=
  log_call observer subject ;;; dispatch_update observer subject.

(** *** Notification *)

(** The loop of lines 73-74.  A Python list iterator holds the list and an
    index; each round it reads the item at the index from the list as it is
    then, and stops when the index is past the end.  [fuel] bounds the
    number of rounds: a callback that appends makes the loop longer. *)
Fixpoint notify_loop (fuel : nat) (self : StationId) (index : nat) (w : World) : Outcome :=
  match fuel with
  | O => (OutOfFuel, w)
  | S fuel' =>
      match _observers self w !! index with
      | None => (Returned, w)
      | Some observer =>
          match update observer (WeatherStationRef self) w with
          | (Returned, w') => notify_loop fuel' self (S index) w'
          | stopped => stopped
          end
      end
  end.

(** Lines 68-74. *)
Definition notify_observers (fuel : nat) (self : StationId) : Method :=
  print Notifying ;;; notify_loop fuel self 0.

(** What [change_temperature] has done when the loop of line 73 starts:
    lines 82, 83 and 72. *)
Definition before_loop (self : StationId) (t : Z) : Method :=
  print (TemperatureChanged t) ;;; assign_temperature self t ;;; print Notifying.

(** Lines 76-84. *)
Definition change_temperature (fuel : nat) (self : StationId) (t : Z) : Method :=
  print (TemperatureChanged t) ;;; assign_temperature self t ;;; notify_observers fuel self.

(** A run of consecutive [add_observer] calls. *)
Fixpoint add_observers (self : StationId) (os : list ObserverId) : Method :=
  match os with
  | [] => ret
  | o :: os' => add_observer self o ;;; add_observers self os'
  end.

End Program.

(** The client code of lines 161-176: station [0], a
    [CurrentConditionsDisplay] [1] and a [StatisticsDisplay] [2].  For
    programs with more observers of the two classes, every odd reference is
    a [CurrentConditionsDisplay] and every even one a [StatisticsDisplay]. *)
Definition main_classes (o : ObserverId) : ObserverClass :=
  if Nat.odd o then CurrentConditionsDisplay else StatisticsDisplay.

Definition weather_station : StationId := 0%nat.
Definition current_conditions_display : ObserverId := 1%nat.
Definition statistics_display : ObserverId := 2%nat.

Definition main_setup : Method :=
  add_observer weather_station current_conditions_display
  ;;; add_observer weather_station statistics_display.

(** A client program with an observer class of its own, whose [update]
    detaches the observer from the subject: observer [2] is of that class,
    every other observer is a [CurrentConditionsDisplay]. *)
Definition self_removing_classes (o : ObserverId) : ObserverClass :=
  match o with
  | 2%nat => ClientObserver [DoRemoveObserver 2%nat]
  | _ => CurrentConditionsDisplay
  end.

(** A client program whose observers attach themselves once more whenever
    they are updated. *)
Definition self_adding_classes (o : ObserverId) : ObserverClass :=
  ClientObserver [DoAddObserver o].

(** ** A client that drives the public interface *)

(** One call made by client code on a station. *)
Inductive Call : Set :=
| AddObserver (s : StationId) (o : ObserverId)
| RemoveObserver (s : StationId) (o : ObserverId)
| NotifyObservers (s : StationId)
| ChangeTemperature (s : StationId) (t : Z).

Definition call (class_of : ObserverId -> ObserverClass) (fuel : nat) (c : Call) : Method :=
  match c with
  | AddObserver s o => add_observer s o
  | RemoveObserver s o => remove_observer s o
  | NotifyObservers s => notify_observers class_of fuel s
  | ChangeTemperature s t => change_temperature class_of fuel s t
  end.

(** The client makes the calls one after the other and catches whatever a
    call raises; a call that never returns ends the run. *)
Fixpoint run (class_of : ObserverId -> ObserverClass) (fuel : nat) (cs : list Call) : Method :=
  match cs with
  | [] => ret
  | c :: cs' =>
      fun w =>
        match call class_of fuel c w with
        | (OutOfFuel, w') => (OutOfFuel, w')
        | (_, w') => run class_of fuel cs' w'
        end
  end.

(** The value a call passes to [change_temperature] on station [s], if it
    is such a call. *)
Definition assigned (s : StationId) (c : Call) : option Z :=
  match c with
  | ChangeTemperature s' t => if decide (s' = s) then Some t else None
  | _ => None
  end.

(** The value passed by the most recent [change_temperature] call on [s]
    among [cs], if there is one. *)
Definition last_set (s : StationId) (cs : list Call) : option Z :=
  last (omap (assigned s) cs).

(** A call that gets past the [print] of line 82: every call but a
    [change_temperature] with an [int] too long to be printed. *)
Definition call_fits (c : Call) : bool :=
  match c with
  | ChangeTemperature _ t => Py.fits t
  | _ => true
  end.

(** The value a call leaves as the temperature of station [s], if any. *)
Definition accepted (s : StationId) (c : Call) : option Z :=
  if call_fits c then assigned s c else None.

(** The value passed by the most recent [change_temperature] call on [s]
    among [cs] that got past line 82, if there is one. *)
Definition last_accepted (s : StationId) (cs : list Call) : option Z :=
  last (omap (accepted s) cs).

(** How often [o.update] has been called. *)
Definition notifications_received (o : ObserverId) (w : World) : nat :=
  length (filter (fun c => c.1 = o) (calls w)).

(** The calls [update] of the listed observers with subject [s], in order. *)
Definition updates_of (s : StationId) (os : list ObserverId) : list (ObserverId * SubjectRef) :=
  map (fun o => (o, WeatherStationRef s)) os.

(** Observers whose [update] neither adds nor removes observers. *)
Definition action_neutral (a : Action) : bool :=
  match a with
  | DoAddObserver _ | DoRemoveObserver _ => false
  | DoPrintTemperature | DoRaise => true
  end.

Definition registry_neutral (c : ObserverClass) : bool :=
  match c with
  | CurrentConditionsDisplay | StatisticsDisplay => true
  | ClientObserver body => forallb action_neutral body
  end.

(** Calling [update] on each of the listed observers in turn, up to the
    first call that raises. *)
Fixpoint update_each (class_of : ObserverId -> ObserverClass)
    (os : list ObserverId) (subject : SubjectRef) : Method :=
  match os with
  | [] => ret
  | o :: os' => update class_of o subject ;;; update_each class_of os' subject
  end.

(** [out] is how calling [update] on the observers [os] one after the
    other, from the world [w0], ends: either every call returned, and then
    [out] has returned with a call logged for each of [os], in order; or
    the calls for [pre] returned, the next call, on [o], raised, and then
    [out] is the outcome of that very call, with the calls for [pre] and
    [o] logged and none after. *)
Definition updates_in_order (class_of : ObserverId -> ObserverClass) (s : StationId)
    (os : list ObserverId) (w0 : World) (out : Outcome) : Prop :=
  (fst out = Returned
   /\ update_each class_of os (WeatherStationRef s) w0 = out
   /\ calls (snd out) = calls w0 ++ updates_of s os)
  \/ (exists pre o post e w1,
        os = pre ++ o :: post
        /\ update_each class_of pre (WeatherStationRef s) w0 = (Returned, w1)
        /\ update class_of o (WeatherStationRef s) w1 = out
        /\ fst out = Raised e
        /\ calls (snd out) = calls w0 ++ updates_of s (pre ++ [o])).

(** A client program with two observer classes of its own: observer [2]
    detaches itself in its [update], observer [4] raises in its [update];
    every other observer is a [CurrentConditionsDisplay]. *)
Definition removing_then_raising_classes (o : ObserverId) : ObserverClass :=
  match o with
  | 2%nat => ClientObserver [DoRemoveObserver 2%nat]
  | 4%nat => ClientObserver [DoRaise]
  | _ => CurrentConditionsDisplay
  end.

(** A relation between the world before and the world after holds for a
    method whenever it holds for the steps the method is made of. *)
Definition preserves (R : World -> World -> Prop) (m : Method) : Prop :=
  forall w, R w (snd (m w)).

(** A method that never ends with a given status. *)
Definition avoids (st : Status) (m : Method) : Prop :=
  forall w, fst (m w) <> st.

(** A printed line that shows a temperature read through the accessor
    shows [t]. *)
Definition reads_as (t : Z) (l : Line) : Prop :=
  match l with
  | CurrentTemperature x | ClientPrinted x => x = Some t
  | _ => True
  end.

(** From [w] to [w'] the temperatures are left alone, and if station [s] is
    at [t], every line printed in between that shows a temperature shows [t]
    and every reading appended to the history is [t]. *)
Definition observes (s : StationId) (t : Z) (w w' : World) : Prop :=
  instance_temperature w' = instance_temperature w
  /\ (instance_temperature w !! s = Some t ->
      exists lines temps,
        stdout w' = stdout w ++ lines
        /\ Forall (reads_as t) lines
        /\ StatisticsDisplay_temperatures w' = StatisticsDisplay_temperatures w ++ temps
        /\ Forall (fun x => x = Some t) temps).

(** From [w] to [w'] the only calls of [update] made have station [s] as
    their subject. *)
Definition only_updates_by (s : StationId) (w w' : World) : Prop :=
  exists os, calls w' = calls w ++ updates_of s os.

(** What a method leaves alone. *)
Definition same_calls (w w' : World) : Prop :=
  calls w' = calls w.

Definition same_temperatures (w w' : World) : Prop :=
  instance_temperature w' = instance_temperature w.

Definition same_registry (w w' : World) : Prop :=
  WeatherStation_observers w' = WeatherStation_observers w.

(** ** The program of lines 161-180 and some vocabulary *)

(** The block under [if __name__ == "__main__"]: the first exception would
    end the program. *)
Definition main (fuel : nat) : Method :=
  main_setup
  ;;; change_temperature main_classes fuel weather_station 24
  ;;; change_temperature main_classes fuel weather_station 29
  ;;; change_temperature main_classes fuel weather_station 15
  ;;; remove_observer weather_station current_conditions_display
  ;;; change_temperature main_classes fuel weather_station 21.

(** How often [o] occurs in a sequence of observers. *)
Definition occurrences (o : ObserverId) (l : list ObserverId) : nat :=
  length (filter (fun x => x = o) l).

(** The two observer classes the module itself declares. *)
Definition is_display (c : ObserverClass) : bool :=
  match c with
  | CurrentConditionsDisplay | StatisticsDisplay => true
  | ClientObserver _ => false
  end.

(** A logged call of [update] on a [StatisticsDisplay] with a
    [WeatherStation] as subject: the calls that pass the [isinstance] test
    of line 146. *)
Definition is_statistics_call (class_of : ObserverId -> ObserverClass)
    (c : ObserverId * SubjectRef) : bool :=
  match class_of c.1, c.2 with
  | StatisticsDisplay, WeatherStationRef _ => true
  | _, _ => false
  end.

Definition statistics_calls (class_of : ObserverId -> ObserverClass) (w : World) : nat :=
  length (filter (fun c => is_statistics_call class_of c = true) (calls w)).

(** The history has one entry for every such call. *)
Definition history_matches_calls (class_of : ObserverId -> ObserverClass) (w : World) : Prop :=
  length (StatisticsDisplay_temperatures w) = statistics_calls class_of w.

Definition same_history (w w' : World) : Prop :=
  StatisticsDisplay_temperatures w' = StatisticsDisplay_temperatures w.

(** From [w] to [w'] the history has only been appended to. *)
Definition history_extends (w w' : World) : Prop :=
  exists more,
    StatisticsDisplay_temperatures w' = StatisticsDisplay_temperatures w ++ more.

(** How many of the listed observers are [StatisticsDisplay]s. *)
Definition is_statistics (c : ObserverClass) : bool :=
  match c with
  | StatisticsDisplay => true
  | _ => false
  end.

Definition statistics_among (class_of : ObserverId -> ObserverClass)
    (l : list ObserverId) : nat :=
  length (filter (fun o => is_statistics (class_of o) = true) l).

(** The line an observer of the module prints when it is updated by a
    station at temperature [t]. *)
Definition printed_by (class_of : ObserverId -> ObserverClass) (t : Z)
    (o : ObserverId) (l : Line) : Prop :=
  match class_of o with
  | CurrentConditionsDisplay => l = CurrentTemperature (Some t)
  | StatisticsDisplay => exists avg mx mn, l = Statistics avg mx mn
  | ClientObserver _ => False
  end.

(** * Properties *)

(** ** Sequencing *)

Lemma and_then_returned (f g : Method) (w w1 : World) :
  f w = (Returned, w1) -> (f ;;; g) w = g w1.
Proof. unfold and_then. intros ->. reflexivity. Qed.

Lemma and_then_stopped (f g : Method) (w w1 : World) (st : Status) :
  f w = (st, w1) -> st <> Returned -> (f ;;; g) w = (st, w1).
Proof. unfold and_then. intros -> Hst. destruct st; congruence. Qed.


Lemma preserves_ret (R : World -> World -> Prop) `{!Reflexive R} : preserves R ret.
Proof. intros w. simpl. reflexivity. Qed.

Lemma preserves_raise (R : World -> World -> Prop) `{!Reflexive R} (e : Exn) :
  preserves R (raise e).
Proof. intros w. simpl. reflexivity. Qed.

Lemma preserves_and_then (R : World -> World -> Prop) `{!Transitive R} (f g : Method) :
  preserves R f -> preserves R g -> preserves R (f ;;; g).
Proof.
  intros Hf Hg w. unfold and_then.
  specialize (Hf w). destruct (f w) as [[| e |] w1]; simpl in *; try assumption.
  transitivity w1; [assumption | apply Hg].
Qed.


Lemma avoids_and_then (st : Status) (f g : Method) :
  avoids st f -> avoids st g -> avoids st (f ;;; g).
Proof.
  intros Hf Hg w. unfold and_then.
  specialize (Hf w). destruct (f w) as [[| e |] w1]; simpl in *; try assumption.
  apply Hg.
Qed.

(** ** What the methods leave alone *)


Global Instance same_temperatures_refl : Reflexive same_temperatures.
Proof. intros w. reflexivity. Qed.
Global Instance same_temperatures_trans : Transitive same_temperatures.
Proof. intros a b c H1 H2. unfold same_temperatures in *. congruence. Qed.
Global Instance same_registry_refl : Reflexive same_registry.
Proof. intros w. reflexivity. Qed.
Global Instance same_registry_trans : Transitive same_registry.
Proof. intros a b c H1 H2. unfold same_registry in *. congruence. Qed.

Lemma print_returns (l : Line) (w : World) :
  printable l = true ->
  print l w
  = (Returned,
     mkWorld (WeatherStation_observers w) (instance_temperature w)
             (StatisticsDisplay_temperatures w) (stdout w ++ [l]) (calls w)).
Proof. unfold print. intros ->. reflexivity. Qed.

Lemma print_raises (l : Line) (w : World) :
  printable l = false -> print l w = (Raised ValueError, w).
Proof. unfold print. intros ->. reflexivity. Qed.

Section Frames.

Variable class_of : ObserverId -> ObserverClass.

Lemma print_temperatures l : preserves same_temperatures (print l).
Proof. intros w. unfold print. destruct (printable l); reflexivity. Qed.

Lemma log_call_temperatures o s : preserves same_temperatures (log_call o s).
Proof. intros w. reflexivity. Qed.

Lemma add_observer_temperatures s o : preserves same_temperatures (add_observer s o).
Proof.
  apply preserves_and_then; [apply _ | | apply print_temperatures].
  intros w. reflexivity.
Qed.

Lemma remove_observer_temperatures s o : preserves same_temperatures (remove_observer s o).
Proof.
  apply preserves_and_then; [apply _ | | apply print_temperatures].
  intros w. unfold remove_listed_observer.
  destruct (Py.list_remove o (_observers s w)); reflexivity.
Qed.

Lemma run_actions_temperatures s body : preserves same_temperatures (run_actions s body).
Proof.
  induction body as [| a body IH]; simpl.
  - apply preserves_ret, _.
  - apply preserves_and_then; [apply _ | | exact IH].
    destruct a; simpl.
    + apply add_observer_temperatures.
    + apply remove_observer_temperatures.
    + intros w. apply print_temperatures.
    + apply preserves_raise, _.
Qed.

Lemma _display_statistics_temperatures o : preserves same_temperatures (_display_statistics o).
Proof.
  intros w. unfold _display_statistics.
  destruct (statistics_line (_temperatures o w)); [apply print_temperatures | reflexivity].
Qed.

Lemma update_temperatures o subject : preserves same_temperatures (update class_of o subject).
Proof.
  apply preserves_and_then; [apply _ | apply log_call_temperatures |].
  unfold dispatch_update. destruct (class_of o) as [| | body], subject as [s |]; simpl;
    try (apply preserves_ret, _).
  - intros w. apply print_temperatures.
  - apply preserves_and_then; [apply _ | | apply _display_statistics_temperatures].
    intros w. reflexivity.
  - apply run_actions_temperatures.
Qed.

Lemma notify_loop_temperatures fuel s i :
  preserves same_temperatures (notify_loop class_of fuel s i).
Proof.
  revert i. induction fuel as [| fuel IH]; intros i w; simpl; [reflexivity |].
  destruct (_observers s w !! i) as [o |]; [| reflexivity].
  pose proof (update_temperatures o (WeatherStationRef s) w) as Hu.
  destruct (update class_of o (WeatherStationRef s) w) as [[| e |] w1]; simpl in *;
    try assumption.
  transitivity w1; [assumption | apply IH].
Qed.

Lemma notify_observers_temperatures fuel s :
  preserves same_temperatures (notify_observers class_of fuel s).
Proof.
  apply preserves_and_then; [apply _ | apply print_temperatures | apply notify_loop_temperatures].
Qed.

(** An [int] too long for the message of line 82: [change_temperature]
    raises before it has assigned or notified anything. *)
Lemma change_temperature_too_long fuel s t w :
  Py.fits t = false ->
  change_temperature class_of fuel s t w = (Raised ValueError, w).
Proof.
  intros Hfits. unfold change_temperature, and_then.
  rewrite print_raises by exact Hfits. reflexivity.
Qed.

(** Otherwise [change_temperature] binds the attribute on the instance it
    is called on, whatever happens during the notification that follows. *)
Lemma change_temperature_temperatures fuel s t w :
  Py.fits t = true ->
  instance_temperature (snd (change_temperature class_of fuel s t w))
  = <[s := t]> (instance_temperature w).
Proof.
  intros Hfits. unfold change_temperature.
  rewrite (and_then_returned _ _ w
             (mkWorld (WeatherStation_observers w) (<[s := t]> (instance_temperature w))
                      (StatisticsDisplay_temperatures w)
                      (stdout w ++ [TemperatureChanged t]) (calls w))).
  - apply (notify_observers_temperatures fuel s).
  - unfold and_then. rewrite print_returns by exact Hfits. reflexivity.
Qed.

Lemma change_temperature_sets fuel s t w :
  Py.fits t = true ->
  temperature s (snd (change_temperature class_of fuel s t w)) = Some t.
Proof.
  intros Hfits. unfold temperature, _temperature.
  rewrite change_temperature_temperatures, lookup_insert_eq by exact Hfits. reflexivity.
Qed.

Lemma change_temperature_other fuel s s' t w :
  s <> s' ->
  temperature s' (snd (change_temperature class_of fuel s t w)) = temperature s' w.
Proof.
  intros Hne. destruct (Py.fits t) eqn:Hfits.
  - unfold temperature, _temperature.
    rewrite change_temperature_temperatures, lookup_insert_ne by assumption. reflexivity.
  - rewrite change_temperature_too_long by exact Hfits. reflexivity.
Qed.

End Frames.

(** ** The temperature accessor *)

Section Accessor.

Variable class_of : ObserverId -> ObserverClass.

Lemma last_accepted_cons s c cs :
  last_accepted s (c :: cs)
  = match last_accepted s cs with
    | Some t => Some t
    | None => accepted s c
    end.
Proof.
  unfold last_accepted.
  change (omap (accepted s) (c :: cs))
    with (match accepted s c with
          | Some t => t :: omap (accepted s) cs
          | None => omap (accepted s) cs
          end).
  destruct (accepted s c) as [t |].
  - apply last_cons.
  - destruct (last (omap (accepted s) cs)); reflexivity.
Qed.

Lemma last_accepted_all_fit s cs :
  Forall (fun c => call_fits c = true) cs -> last_accepted s cs = last_set s cs.
Proof.
  intros Hfit. unfold last_accepted, last_set. f_equal.
  induction Hfit as [| c cs Hc _ IH]; [reflexivity |].
  change (omap (accepted s) (c :: cs))
    with (match accepted s c with
          | Some t => t :: omap (accepted s) cs
          | None => omap (accepted s) cs
          end).
  change (omap (assigned s) (c :: cs))
    with (match assigned s c with
          | Some t => t :: omap (assigned s) cs
          | None => omap (assigned s) cs
          end).
  unfold accepted at 1. rewrite Hc, IH. reflexivity.
Qed.

Lemma same_temperatures_accessor s w w' :
  same_temperatures w w' -> temperature s w' = temperature s w.
Proof. unfold same_temperatures, temperature, _temperature. intros ->. reflexivity. Qed.

Lemma call_temperature fuel s c w :
  temperature s (snd (call class_of fuel c w))
  = match accepted s c with
    | Some t => Some t
    | None => temperature s w
    end.
Proof.
  unfold accepted.
  destruct c as [s' o | s' o | s' | s' t]; simpl.
  - apply same_temperatures_accessor, add_observer_temperatures.
  - apply same_temperatures_accessor, remove_observer_temperatures.
  - apply same_temperatures_accessor, notify_observers_temperatures.
  - destruct (Py.fits t) eqn:Hfits.
    + destruct (decide (s' = s)) as [-> | Hne].
      * apply change_temperature_sets. exact Hfits.
      * apply change_temperature_other. assumption.
    + rewrite change_temperature_too_long by exact Hfits. reflexivity.
Qed.

Lemma run_temperature fuel s cs : forall w,
  fst (run class_of fuel cs w) <> OutOfFuel ->
  temperature s (snd (run class_of fuel cs w))
  = match last_accepted s cs with
    | Some t => Some t
    | None => temperature s w
    end.
Proof.
  induction cs as [| c cs IH]; intros w Hfuel.
  - reflexivity.
  - rewrite last_accepted_cons. simpl in *.
    pose proof (call_temperature fuel s c w) as Hc.
    destruct (call class_of fuel c w) as [[| e |] w1]; simpl in *;
      try (rewrite (IH w1 Hfuel), Hc; destruct (last_accepted s cs); reflexivity).
    congruence.
Qed.

End Accessor.

(** C5, as the code has it. After any run of client calls that comes to an
    end, started when the module has just been loaded, the accessor
    [temperature] of every station gives the value of the most recent
    [change_temperature] call on that station whose value has at most 4300
    digits, and [None] when there was no such call: a call with a longer
    [int] raises [ValueError] at line 82, before the assignment.  When every
    value passed has at most 4300 digits, that is the value of the most
    recent call.  [None] is not a number, so it differs from the reading
    zero. *)
Theorem temperature_is_last_accepted
    (class_of : ObserverId -> ObserverClass) (fuel : nat) (cs : list Call) (s : StationId) :
  fst (run class_of fuel cs initial_world) <> OutOfFuel ->
  temperature s (snd (run class_of fuel cs initial_world)) = last_accepted s cs
  /\ (Forall (fun c => call_fits c = true) cs ->
      temperature s (snd (run class_of fuel cs initial_world)) = last_set s cs)
  /\ temperature s initial_world = None
  /\ (forall z : Z, WeatherStation_temperature <> Some z).
Proof.
  intros Hfuel.
  assert (Hlast : temperature s (snd (run class_of fuel cs initial_world))
                  = last_accepted s cs).
  { rewrite (run_temperature class_of fuel s cs initial_world Hfuel).
    destruct (last_accepted s cs); reflexivity. }
  split; [exact Hlast |]. split; [| split].
  - intros Hfit. rewrite Hlast. apply last_accepted_all_fit. exact Hfit.
  - reflexivity.
  - intros z. discriminate.
Qed.

(** The run of lines 170-176 on station [0], with an untouched station [1]
    beside it. *)
Lemma temperature_is_last_accepted_witness :
  fst (run main_classes 3
         [AddObserver 0 1; AddObserver 0 2;
          ChangeTemperature 0 24; ChangeTemperature 0 29; ChangeTemperature 0 15]
         initial_world) <> OutOfFuel
  /\ temperature 0
       (snd (run main_classes 3
               [AddObserver 0 1; AddObserver 0 2;
                ChangeTemperature 0 24; ChangeTemperature 0 29; ChangeTemperature 0 15]
               initial_world)) = Some 15
  /\ temperature 1
       (snd (run main_classes 3
               [AddObserver 0 1; AddObserver 0 2;
                ChangeTemperature 0 24; ChangeTemperature 0 29; ChangeTemperature 0 15]
               initial_world)) = None.
Proof.
  assert (Hfuel : fst (run main_classes 3
         [AddObserver 0 1; AddObserver 0 2;
          ChangeTemperature 0 24; ChangeTemperature 0 29; ChangeTemperature 0 15]
         initial_world) <> OutOfFuel) by (vm_compute; discriminate).
  split; [exact Hfuel | split].
  - exact (proj1 (temperature_is_last_accepted main_classes 3 _ 0%nat Hfuel)).
  - exact (proj1 (temperature_is_last_accepted main_classes 3 _ 1%nat Hfuel)).
Defined.

(** C5, as the claim has it, fails: after [change_temperature(7)] and
    [change_temperature(10 ** 4300)], the second of which raises
    [ValueError] at line 82, the temperature is 7 and not the value of the
    most recent call. *)
Lemma temperature_keeps_value_after_long_int :
  fst (run main_classes 1
         [ChangeTemperature 0 7; ChangeTemperature 0 (10 ^ 4300)] initial_world)
  <> OutOfFuel
  /\ last_set 0%nat [ChangeTemperature 0 7; ChangeTemperature 0 (10 ^ 4300)]
     = Some (10 ^ 4300)
  /\ temperature 0%nat
       (snd (run main_classes 1
               [ChangeTemperature 0 7; ChangeTemperature 0 (10 ^ 4300)] initial_world))
     = Some 7
  /\ fst (change_temperature main_classes 1 0%nat (10 ^ 4300)
            (snd (change_temperature main_classes 1 0%nat 7 initial_world)))
     = Raised ValueError.
Proof.
  split; [vm_compute; discriminate |].
  split; [reflexivity |].
  split; vm_compute; reflexivity.
Qed.

(** ** Removing an observer *)

Lemma list_remove_absent (x : nat) (l : list nat) :
  x ∉ l -> Py.list_remove x l = Err ValueError.
Proof.
  induction l as [| y l IH]; intros Hnot; simpl.
  - reflexivity.
  - destruct (decide (y = x)) as [-> | Hne].
    + exfalso. apply Hnot. left.
    + rewrite IH; [reflexivity |].
      intros Hin. apply Hnot. right. exact Hin.
Qed.

Lemma list_remove_present (x : nat) (l1 l2 : list nat) :
  x ∉ l1 -> Py.list_remove x (l1 ++ x :: l2) = Ok (l1 ++ l2).
Proof.
  induction l1 as [| y l1 IH]; intros Hnot; simpl.
  - destruct (decide (x = x)); [reflexivity | congruence].
  - destruct (decide (y = x)) as [-> | Hne].
    + exfalso. apply Hnot. left.
    + rewrite IH; [reflexivity |].
      intros Hin. apply Hnot. right. exact Hin.
Qed.

(** C3, as the code has it. Removing an observer that is not in the registry
    raises [ValueError], the exception of [list.remove]; the call changes
    nothing (the registry is as before and nothing is printed). *)
Theorem remove_observer_absent_raises (s : StationId) (o : ObserverId) (w : World) :
  o ∉ _observers s w ->
  remove_observer s o w = (Raised ValueError, w).
Proof.
  intros Hnot. unfold remove_observer, and_then, remove_listed_observer.
  rewrite (list_remove_absent o (_observers s w) Hnot). reflexivity.
Qed.

Lemma remove_observer_absent_raises_witness :
  remove_observer weather_station statistics_display
    (snd (add_observer weather_station current_conditions_display initial_world))
  = (Raised ValueError,
     snd (add_observer weather_station current_conditions_display initial_world)).
Proof.
  apply remove_observer_absent_raises.
  vm_compute. intros Hin. apply list_elem_of_In in Hin. simpl in Hin.
  destruct Hin as [Heq | []]. discriminate Heq.
Defined.

(** C3, as the claim has it, fails: on a station without observers the call
    does not return, it raises. *)
Lemma remove_observer_absent_not_silent :
  (current_conditions_display ∉ _observers weather_station initial_world)
  /\ fst (remove_observer weather_station current_conditions_display initial_world)
     = Raised ValueError
  /\ fst (remove_observer weather_station current_conditions_display initial_world)
     <> Returned.
Proof.
  split; [| split].
  - vm_compute. intros Hin. apply list_elem_of_In in Hin. exact Hin.
  - reflexivity.
  - discriminate.
Qed.

(** ** Division in the statistics *)

Lemma true_divide_by_nonzero (a b : Z) :
  b <> 0 -> Py.true_divide a b <> Err ZeroDivisionError.
Proof.
  intros Hb. unfold Py.true_divide.
  destruct (SFdiv_core_binary Py.prec Py.emax (Z.abs a) 0 (Z.abs b) 0) as [[mz ez] lz].
  destruct a, b; try congruence;
    match goal with
    | |- context [binary_round_aux ?p ?e ?s ?m ?x ?l] =>
        destruct (binary_round_aux p e s m x l); discriminate
    end.
Qed.

Lemma sum_from_no_division (acc : Z) (l : list (option Z)) :
  Py.sum_from acc l <> Err ZeroDivisionError.
Proof.
  revert acc. induction l as [| [z |] l IH]; intros acc; simpl.
  - discriminate.
  - apply IH.
  - discriminate.
Qed.

Lemma extremum_no_division (pick : Z -> Z -> Z) (best : Z) (l : list (option Z)) :
  Py.extremum pick best l <> Err ZeroDivisionError.
Proof.
  revert best. induction l as [| [z |] l IH]; intros best; simpl.
  - discriminate.
  - apply IH.
  - discriminate.
Qed.

Lemma statistics_line_no_division (temps : list (option Z)) :
  temps <> [] -> statistics_line temps <> Err ZeroDivisionError.
Proof.
  intros Hne. unfold statistics_line, Py.sum.
  pose proof (sum_from_no_division 0 temps) as Hsum.
  destruct (Py.sum_from 0 temps) as [total | e]; simpl; [| congruence].
  assert (Hlen : Z.of_nat (length temps) <> 0) by (destruct temps; [congruence | simpl; lia]).
  pose proof (true_divide_by_nonzero total _ Hlen) as Hdiv.
  destruct (Py.true_divide total (Z.of_nat (length temps))) as [avg | e]; simpl; [| congruence].
  destruct temps as [| [z |] temps]; simpl; try discriminate.
  pose proof (extremum_no_division Z.max z temps) as Hmax.
  destruct (Py.extremum Z.max z temps) as [mx | e]; simpl; [| congruence].
  pose proof (extremum_no_division Z.min z temps) as Hmin.
  destruct (Py.extremum Z.min z temps) as [mn | e]; simpl; [discriminate | congruence].
Qed.

Section NoDivisionByZero.

Variable class_of : ObserverId -> ObserverClass.

Let no_division := avoids (Raised ZeroDivisionError).

Lemma print_no_division l : no_division (print l).
Proof. intros w. unfold print. destruct (printable l); discriminate. Qed.

Lemma add_observer_no_division s o : no_division (add_observer s o).
Proof.
  apply avoids_and_then; [| apply print_no_division].
  intros w. discriminate.
Qed.

Lemma remove_observer_no_division s o : no_division (remove_observer s o).
Proof.
  apply avoids_and_then; [| apply print_no_division].
  intros w. unfold remove_listed_observer.
  pose proof (list_remove_absent o (_observers s w)) as Habs.
  destruct (decide (o ∈ _observers s w)) as [Hin | Hnot].
  - apply list_elem_of_split in Hin as (l1 & l2 & Heq).
    clear Habs. revert Heq. generalize (_observers s w). intros l ->.
    induction l1 as [| y l1 IH]; simpl.
    + destruct (decide (o = o)); [discriminate | congruence].
    + destruct (decide (y = o)); [discriminate |].
      destruct (Py.list_remove o (l1 ++ o :: l2)); simpl in *; [discriminate | exact IH].
  - rewrite (Habs Hnot). discriminate.
Qed.

Lemma run_actions_no_division s body : no_division (run_actions s body).
Proof.
  induction body as [| a body IH]; simpl.
  - intros w. discriminate.
  - apply avoids_and_then; [| exact IH].
    destruct a; simpl.
    + apply add_observer_no_division.
    + apply remove_observer_no_division.
    + intros w. apply print_no_division.
    + intros w. discriminate.
Qed.

(** The list [_display_statistics] works on has just been appended to. *)
Lemma StatisticsDisplay_update_no_division o subject :
  no_division (StatisticsDisplay_update o subject).
Proof.
  destruct subject as [s |]; simpl; [| intros w; discriminate].
  intros w. unfold and_then, append_temperature, _display_statistics, _temperatures. simpl.
  pose proof (statistics_line_no_division
                (StatisticsDisplay_temperatures w ++ [temperature s w])) as Hline.
  destruct (statistics_line (StatisticsDisplay_temperatures w ++ [temperature s w]))
    as [l | e]; simpl.
  - apply print_no_division.
  - intros Heq. apply Hline.
    + intros Hnil. apply app_eq_nil in Hnil as [_ Hnil]. discriminate Hnil.
    + congruence.
Qed.

Lemma update_no_division o subject : no_division (update class_of o subject).
Proof.
  apply avoids_and_then; [intros w; discriminate |].
  unfold dispatch_update. destruct (class_of o) as [| | body].
  - destruct subject; intros w; [apply print_no_division | discriminate].
  - apply StatisticsDisplay_update_no_division.
  - destruct subject as [s |]; simpl; [apply run_actions_no_division | intros w; discriminate].
Qed.

Lemma notify_loop_no_division fuel s i : no_division (notify_loop class_of fuel s i).
Proof.
  revert i. induction fuel as [| fuel IH]; intros i w; simpl; [discriminate |].
  destruct (_observers s w !! i) as [o |]; [| discriminate].
  pose proof (update_no_division o (WeatherStationRef s) w) as Hu.
  destruct (update class_of o (WeatherStationRef s) w) as [[| e |] w1]; simpl in *;
    try assumption.
  apply IH.
Qed.

Lemma notify_observers_no_division fuel s : no_division (notify_observers class_of fuel s).
Proof.
  apply avoids_and_then; [apply print_no_division | apply notify_loop_no_division].
Qed.

Lemma change_temperature_no_division fuel s t :
  no_division (change_temperature class_of fuel s t).
Proof.
  unfold change_temperature.
  apply avoids_and_then; [apply avoids_and_then |].
  - apply print_no_division.
  - intros w. discriminate.
  - apply notify_observers_no_division.
Qed.

End NoDivisionByZero.

(** C10. The statistics divide by the length of the history.  On an empty
    history that division would raise [ZeroDivisionError]; but [update]
    appends a reading before it calls [_display_statistics], so the history
    is not empty there, and no call of [StatisticsDisplay.update], no call
    of [update] on any observer, and no notification pass or
    [change_temperature] call ends in [ZeroDivisionError]. *)
Theorem statistics_never_divide_by_zero (class_of : ObserverId -> ObserverClass) :
  statistics_line [] = Err ZeroDivisionError
  /\ (forall o s w, _temperatures o (snd (append_temperature o s w)) <> [])
  /\ (forall o subject w,
        fst (StatisticsDisplay_update o subject w) <> Raised ZeroDivisionError)
  /\ (forall o subject w,
        fst (update class_of o subject w) <> Raised ZeroDivisionError)
  /\ (forall fuel s w,
        fst (notify_observers class_of fuel s w) <> Raised ZeroDivisionError)
  /\ (forall fuel s t w,
        fst (change_temperature class_of fuel s t w) <> Raised ZeroDivisionError).
Proof.
  split; [reflexivity |]. split; [| split; [| split; [| split]]].
  - intros o s w Hnil. unfold append_temperature, _temperatures in Hnil. simpl in Hnil.
    apply app_eq_nil in Hnil as [_ Hnil]. discriminate Hnil.
  - intros o subject w. apply StatisticsDisplay_update_no_division.
  - intros o subject w. apply update_no_division.
  - intros fuel s w. apply notify_observers_no_division.
  - intros fuel s t w. apply change_temperature_no_division.
Qed.

(** ** One registry and one history for all instances *)

(** C1. The observer sequence is one list for all stations: an observer
    added through station [s1] is in the sequence of every station [s2].
    With stations [0] and [1] and a display added to station [0] only, a
    [change_temperature] on station [1] calls the display's [update], which
    prints the temperature of station [1]. *)
Theorem observers_shared_between_stations (extra : nat) :
  (forall (s1 s2 : StationId) (o : ObserverId) (w : World),
     _observers s2 (snd (add_observer s1 o w)) = _observers s2 w ++ [o])
  /\ (let w := snd (add_observer 0%nat current_conditions_display initial_world) in
      let out := change_temperature main_classes (2 + extra) 1%nat 24 w in
      _observers 1%nat initial_world = []
      /\ _observers 1%nat w = [current_conditions_display]
      /\ fst out = Returned
      /\ calls (snd out) = [(current_conditions_display, WeatherStationRef 1%nat)]
      /\ stdout (snd out)
         = stdout w ++ [TemperatureChanged 24; Notifying; CurrentTemperature (Some 24)]).
Proof.
  split.
  - intros s1 s2 o w. reflexivity.
  - vm_compute. repeat split.
Qed.

(** C4. The history is one list for all [StatisticsDisplay] instances: an
    update of instance [o1] appends to the history of every instance [o2].
    With displays [2] and [4] of which only [2] is attached, after one
    [change_temperature] display [4] has received no notification and its
    history has one entry; with both attached, each has received one
    notification and the history of each has two entries. *)
Theorem histories_shared_between_displays (extra : nat) :
  (forall (o1 o2 : ObserverId) (s : StationId) (w : World),
     _temperatures o2 (snd (StatisticsDisplay_update o1 (WeatherStationRef s) w))
     = _temperatures o2 w ++ [temperature s w])
  /\ (let w := snd (add_observer weather_station 2%nat initial_world) in
      let out := change_temperature main_classes (2 + extra) weather_station 24 w in
      main_classes 2%nat = StatisticsDisplay
      /\ main_classes 4%nat = StatisticsDisplay
      /\ fst out = Returned
      /\ notifications_received 4%nat (snd out) = 0%nat
      /\ _temperatures 4%nat (snd out) = [Some 24])
  /\ (let w := snd (add_observers weather_station [2%nat; 4%nat] initial_world) in
      let out := change_temperature main_classes (3 + extra) weather_station 24 w in
      fst out = Returned
      /\ notifications_received 2%nat (snd out) = 1%nat
      /\ notifications_received 4%nat (snd out) = 1%nat
      /\ _temperatures 2%nat (snd out) = [Some 24; Some 24]
      /\ _temperatures 4%nat (snd out) = [Some 24; Some 24]).
Proof.
  split; [| split].
  - intros o1 o2 s w. unfold StatisticsDisplay_update, and_then, append_temperature,
      _display_statistics, _temperatures. simpl.
    destruct (statistics_line (StatisticsDisplay_temperatures w ++ [temperature s w]))
      as [l | e]; [| reflexivity].
    unfold print. destruct (printable l); reflexivity.
  - vm_compute. repeat split.
  - vm_compute. repeat split.
Qed.

(** ** Detaching during a notification pass *)

(** C2. The loop of [notify_observers] reads the registry itself, not a copy
    taken when the pass begins.  With the registry [[1; 2; 3]], where the
    [update] of observer [2] detaches observer [2], one [change_temperature]
    returns normally after calling [update] on [1] and [2] only: observer [3],
    in the registry before and after the pass, is not notified. *)
Theorem self_removal_skips_next_observer (extra : nat) :
  let w := snd (add_observers weather_station [1%nat; 2%nat; 3%nat] initial_world) in
  let out := change_temperature self_removing_classes (3 + extra) weather_station 24 w in
  _observers weather_station w = [1%nat; 2%nat; 3%nat]
  /\ fst out = Returned
  /\ calls (snd out)
     = [(1%nat, WeatherStationRef weather_station); (2%nat, WeatherStationRef weather_station)]
  /\ _observers weather_station (snd out) = [1%nat; 3%nat]
  /\ notifications_received 3%nat (snd out) = 0%nat.
Proof. vm_compute. repeat split. Qed.

(** ** The statistics of a history *)

Lemma sum_from_ints (acc : Z) (zs : list Z) :
  Py.sum_from acc (map Some zs) = Ok (fold_left Z.add zs acc).
Proof.
  revert acc. induction zs as [| z zs IH]; intros acc; simpl; [reflexivity | apply IH].
Qed.

Lemma extremum_max_ints (best : Z) (zs : list Z) :
  exists m, Py.extremum Z.max best (map Some zs) = Ok m
            /\ m ∈ best :: zs
            /\ Forall (fun z => z <= m) (best :: zs).
Proof.
  revert best. induction zs as [| z zs IH]; intros best; simpl.
  - exists best. repeat split; [left | repeat constructor; lia].
  - destruct (IH (Z.max best z)) as (m & Hm & Hin & Hall).
    exists m. split; [exact Hm |].
    apply Forall_cons in Hall as [Hbest Hall]. split.
    + apply elem_of_cons in Hin as [-> | Hin].
      * destruct (Z.max_spec best z) as [[_ ->] | [_ ->]]; [right; left | left].
      * right; right; exact Hin.
    + repeat constructor; [lia | lia | exact Hall].
Qed.

Lemma extremum_min_ints (best : Z) (zs : list Z) :
  exists m, Py.extremum Z.min best (map Some zs) = Ok m
            /\ m ∈ best :: zs
            /\ Forall (fun z => m <= z) (best :: zs).
Proof.
  revert best. induction zs as [| z zs IH]; intros best; simpl.
  - exists best. repeat split; [left | repeat constructor; lia].
  - destruct (IH (Z.min best z)) as (m & Hm & Hin & Hall).
    exists m. split; [exact Hm |].
    apply Forall_cons in Hall as [Hbest Hall]. split.
    + apply elem_of_cons in Hin as [-> | Hin].
      * destruct (Z.min_spec best z) as [[_ ->] | [_ ->]]; [left | right; left].
      * right; right; exact Hin.
    + repeat constructor; [lia | lia | exact Hall].
Qed.

(** Whenever a statistics line is printed for a history of readings, its
    maximum and minimum are entries of the history that bound every entry,
    and its average is the quotient of the sum of all entries by their
    number, formatted with one decimal. *)
Lemma statistics_line_whole_history (zs : list Z) (l : Line) :
  statistics_line (map Some zs) = Ok l ->
  exists avg mx mn,
    l = Statistics (Py.format_1f avg) mx mn
    /\ Py.true_divide (fold_left Z.add zs 0) (Z.of_nat (length zs)) = Ok avg
    /\ mx ∈ zs /\ Forall (fun z => z <= mx) zs
    /\ mn ∈ zs /\ Forall (fun z => mn <= z) zs.
Proof.
  unfold statistics_line, Py.sum. rewrite sum_from_ints, length_map. simpl.
  destruct (Py.true_divide (fold_left Z.add zs 0) (Z.of_nat (length zs))) as [avg | e];
    simpl; [| discriminate].
  destruct zs as [| z zs]; simpl; [discriminate |].
  destruct (extremum_max_ints z zs) as (mx & -> & Hmx_in & Hmx).
  destruct (extremum_min_ints z zs) as (mn & -> & Hmn_in & Hmn).
  simpl. intros [= <-]. exists avg, mx, mn. repeat split; assumption.
Qed.

(** C9. The client code of lines 163-176: a fresh station with a
    [CurrentConditionsDisplay] and a [StatisticsDisplay] attached in that
    order, and the temperatures 24, 29, 15.  Each call returns; the display
    prints 24, then 29, then 15; the history of the statistics is [24], then
    [24, 29], then [24, 29, 15]; the statistics line, computed from the whole
    history each time, shows 24.0/24/24, then 26.5/29/24, then 22.7/29/15. *)
Theorem main_scenario (extra : nat) :
  let fuel := (3 + extra)%nat in
  let w0 := snd (main_setup initial_world) in
  let r1 := change_temperature main_classes fuel weather_station 24 w0 in
  let r2 := change_temperature main_classes fuel weather_station 29 (snd r1) in
  let r3 := change_temperature main_classes fuel weather_station 15 (snd r2) in
  _observers weather_station w0 = [current_conditions_display; statistics_display]
  /\ (fst r1 = Returned
      /\ stdout (snd r1)
         = stdout w0 ++ [TemperatureChanged 24; Notifying;
                         CurrentTemperature (Some 24); Statistics "24.0" 24 24]
      /\ _temperatures statistics_display (snd r1) = [Some 24]
      /\ statistics_line (_temperatures statistics_display (snd r1))
         = Ok (Statistics "24.0" 24 24))
  /\ (fst r2 = Returned
      /\ stdout (snd r2)
         = stdout (snd r1) ++ [TemperatureChanged 29; Notifying;
                               CurrentTemperature (Some 29); Statistics "26.5" 29 24]
      /\ _temperatures statistics_display (snd r2) = [Some 24; Some 29]
      /\ statistics_line (_temperatures statistics_display (snd r2))
         = Ok (Statistics "26.5" 29 24))
  /\ (fst r3 = Returned
      /\ stdout (snd r3)
         = stdout (snd r2) ++ [TemperatureChanged 15; Notifying;
                               CurrentTemperature (Some 15); Statistics "22.7" 29 15]
      /\ _temperatures statistics_display (snd r3) = [Some 24; Some 29; Some 15]
      /\ statistics_line (_temperatures statistics_display (snd r3))
         = Ok (Statistics "22.7" 29 15))
  /\ render (CurrentTemperature (Some 15))
     = "CurrentConditionsDisplay: The current temperature is 15" +:+ degrees_C
  /\ render (Statistics "22.7" 29 15)
     = "StatisticsDisplay: Avg/Max/Min temperatures = 22.7/29/15" +:+ degrees_C
  /\ (forall (zs : list Z) (l : Line),
        statistics_line (map Some zs) = Ok l ->
        exists avg mx mn,
          l = Statistics (Py.format_1f avg) mx mn
          /\ Py.true_divide (fold_left Z.add zs 0) (Z.of_nat (length zs)) = Ok avg
          /\ mx ∈ zs /\ Forall (fun z => z <= mx) zs
          /\ mn ∈ zs /\ Forall (fun z => mn <= z) zs).
Proof.
  cbv zeta.
  repeat match goal with |- _ /\ _ => split end;
    try (vm_compute; reflexivity).
  exact statistics_line_whole_history.
Qed.

(** ** The notification pass *)

Global Instance same_calls_refl : Reflexive same_calls.
Proof. intros w. reflexivity. Qed.
Global Instance same_calls_trans : Transitive same_calls.
Proof. intros a b c H1 H2. unfold same_calls in *. congruence. Qed.

Lemma before_loop_returns s t w :
  Py.fits t = true ->
  before_loop s t w
  = (Returned,
     mkWorld (WeatherStation_observers w) (<[s := t]> (instance_temperature w))
             (StatisticsDisplay_temperatures w)
             (stdout w ++ [TemperatureChanged t; Notifying]) (calls w)).
Proof.
  intros Hfits. unfold before_loop, and_then.
  rewrite print_returns by exact Hfits.
  unfold assign_temperature, print. simpl. rewrite <- app_assoc. reflexivity.
Qed.

Lemma before_loop_world s t w :
  Py.fits t = true ->
  snd (before_loop s t w)
  = mkWorld (WeatherStation_observers w) (<[s := t]> (instance_temperature w))
            (StatisticsDisplay_temperatures w)
            (stdout w ++ [TemperatureChanged t; Notifying]) (calls w).
Proof. intros Hfits. rewrite before_loop_returns by exact Hfits. reflexivity. Qed.

Lemma change_temperature_loop class_of fuel s t w :
  Py.fits t = true ->
  change_temperature class_of fuel s t w
  = notify_loop class_of fuel s 0 (snd (before_loop s t w)).
Proof.
  intros Hfits. unfold change_temperature, before_loop, notify_observers, and_then.
  rewrite print_returns by exact Hfits. reflexivity.
Qed.

Section Passes.

Variable class_of : ObserverId -> ObserverClass.

Lemma print_calls l : preserves same_calls (print l).
Proof. intros w. unfold print. destruct (printable l); reflexivity. Qed.

Lemma print_registry l : preserves same_registry (print l).
Proof. intros w. unfold print. destruct (printable l); reflexivity. Qed.

Lemma print_ends l : avoids OutOfFuel (print l).
Proof. intros w. unfold print. destruct (printable l); discriminate. Qed.

(** Only [update] itself writes to the log of calls. *)
Lemma run_actions_calls s body : preserves same_calls (run_actions s body).
Proof.
  induction body as [| a body IH]; simpl.
  - apply preserves_ret, _.
  - apply preserves_and_then; [apply _ | | exact IH].
    destruct a; simpl.
    + apply preserves_and_then; [apply _ | | apply print_calls]. intros w; reflexivity.
    + apply preserves_and_then; [apply _ | | apply print_calls].
      intros w. unfold remove_listed_observer.
      destruct (Py.list_remove o (_observers s w)); reflexivity.
    + intros w. apply print_calls.
    + apply preserves_raise, _.
Qed.

Lemma dispatch_update_calls o subject : preserves same_calls (dispatch_update class_of o subject).
Proof.
  unfold dispatch_update. destruct (class_of o) as [| | body], subject as [s |]; simpl;
    try (apply preserves_ret, _).
  - intros w. apply print_calls.
  - apply preserves_and_then; [apply _ | intros w; reflexivity |].
    intros w. unfold _display_statistics.
    destruct (statistics_line (_temperatures o w)); [apply print_calls | reflexivity].
  - apply run_actions_calls.
Qed.

Lemma update_calls o subject w :
  calls (snd (update class_of o subject w)) = calls w ++ [(o, subject)].
Proof.
  unfold update.
  rewrite (and_then_returned _ _ w
             (mkWorld (WeatherStation_observers w) (instance_temperature w)
                      (StatisticsDisplay_temperatures w) (stdout w)
                      (calls w ++ [(o, subject)]))) by reflexivity.
  apply (dispatch_update_calls o subject).
Qed.

(** An observer of a neutral class leaves the registry as it is. *)
Lemma run_actions_registry s body :
  forallb action_neutral body = true -> preserves same_registry (run_actions s body).
Proof.
  induction body as [| a body IH]; simpl; intros Hbody.
  - apply preserves_ret, _.
  - apply andb_prop in Hbody as [Ha Hbody].
    apply preserves_and_then; [apply _ | | exact (IH Hbody)].
    destruct a; simpl in *; try discriminate.
    + intros w. apply print_registry.
    + apply preserves_raise, _.
Qed.

Lemma update_registry o subject :
  registry_neutral (class_of o) = true ->
  preserves same_registry (update class_of o subject).
Proof.
  intros Hneutral.
  apply preserves_and_then; [apply _ | intros w; reflexivity |].
  unfold dispatch_update. destruct (class_of o) as [| | body], subject as [s |]; simpl;
    try (apply preserves_ret, _).
  - intros w. apply print_registry.
  - apply preserves_and_then; [apply _ | intros w; reflexivity |].
    intros w. unfold _display_statistics.
    destruct (statistics_line (_temperatures o w)); [apply print_registry | reflexivity].
  - apply run_actions_registry. exact Hneutral.
Qed.

Lemma add_observers_spec s os : forall w,
  fst (add_observers s os w) = Returned
  /\ _observers s (snd (add_observers s os w)) = _observers s w ++ os
  /\ calls (snd (add_observers s os w)) = calls w.
Proof.
  induction os as [| o os IH]; intros w; simpl.
  - rewrite app_nil_r. repeat split.
  - unfold and_then at 1. unfold add_observer, and_then, append_observer, print. simpl.
    match goal with
    | |- context [add_observers s os ?w1] => destruct (IH w1) as (Hst & Hreg & Hcalls)
    end.
    rewrite Hst, Hreg, Hcalls. unfold _observers. simpl.
    rewrite <- app_assoc. repeat split.
Qed.

Lemma lookup_drop_head {A : Type} (l : list A) (i : nat) (x : A) (rest : list A) :
  drop i l = x :: rest -> l !! i = Some x /\ drop (S i) l = rest.
Proof.
  intros Hdrop.
  assert (Hlookup : l !! i = Some x).
  { rewrite <- (Nat.add_0_r i), <- lookup_drop, Hdrop. reflexivity. }
  split; [exact Hlookup |].
  rewrite (drop_S l x i Hlookup) in Hdrop. congruence.
Qed.

End Passes.

Section Ending.

Variable class_of : ObserverId -> ObserverClass.

(** Only the loop can run out of fuel. *)
Lemma run_actions_ends s body : avoids OutOfFuel (run_actions s body).
Proof.
  induction body as [| a body IH]; simpl.
  - intros w. discriminate.
  - apply avoids_and_then; [| exact IH].
    destruct a; simpl.
    + apply avoids_and_then; [intros w; discriminate | apply print_ends].
    + apply avoids_and_then; [| apply print_ends].
      intros w. unfold remove_listed_observer.
      destruct (Py.list_remove o (_observers s w)); discriminate.
    + intros w. apply print_ends.
    + intros w. discriminate.
Qed.

Lemma update_ends o subject : avoids OutOfFuel (update class_of o subject).
Proof.
  apply avoids_and_then; [intros w; discriminate |].
  unfold dispatch_update. destruct (class_of o) as [| | body], subject as [s |]; simpl;
    try (intros w; discriminate).
  - intros w. apply print_ends.
  - apply avoids_and_then; [intros w; discriminate |].
    intros w. unfold _display_statistics.
    destruct (statistics_line (_temperatures o w)); [apply print_ends | discriminate].
  - apply run_actions_ends.
Qed.

(** A pass over observers of neutral classes: every observer from [index]
    on is called once, in the order of the registry, up to the end of the
    registry or up to the first call that raises. *)
Lemma notify_loop_in_order s : forall fuel i w,
  Forall (fun o => registry_neutral (class_of o) = true) (drop i (_observers s w)) ->
  (length (drop i (_observers s w)) < fuel)%nat ->
  _observers s (snd (notify_loop class_of fuel s i w)) = _observers s w
  /\ ((fst (notify_loop class_of fuel s i w) = Returned
       /\ calls (snd (notify_loop class_of fuel s i w))
          = calls w ++ updates_of s (drop i (_observers s w)))
      \/ (exists e k,
            fst (notify_loop class_of fuel s i w) = Raised e
            /\ (k < length (drop i (_observers s w)))%nat
            /\ calls (snd (notify_loop class_of fuel s i w))
               = calls w ++ updates_of s (take (S k) (drop i (_observers s w))))).
Proof.
  induction fuel as [| fuel IH]; intros i w Hneutral Hfuel; [lia |].
  simpl. destruct (_observers s w !! i) as [o |] eqn:Hlookup.
  - rewrite (drop_S _ _ _ Hlookup) in Hneutral, Hfuel |- *.
    apply Forall_cons in Hneutral as [Ho Hrest]. simpl in Hfuel.
    pose proof (update_registry class_of o (WeatherStationRef s) Ho w) as Hreg.
    pose proof (update_calls class_of o (WeatherStationRef s) w) as Hcalls.
    pose proof (update_ends o (WeatherStationRef s) w) as Hends.
    destruct (update class_of o (WeatherStationRef s) w) as [[| e |] w1]; simpl in *.
    + assert (Hsame : _observers s w1 = _observers s w) by exact Hreg.
      destruct (IH (S i) w1) as (Hreg' & Hcases).
      { rewrite Hsame. exact Hrest. }
      { rewrite Hsame. lia. }
      rewrite Hsame in Hcases. split; [congruence |].
      destruct Hcases as [[Hst Hc] | (e & k & Hst & Hk & Hc)].
      * left. split; [exact Hst |]. rewrite Hc, Hcalls, <- app_assoc. reflexivity.
      * right. exists e, (S k). split; [exact Hst |]. split; [simpl; lia |].
        rewrite Hc, Hcalls, <- app_assoc. reflexivity.
    + split; [exact Hreg |]. right. exists e, 0%nat.
      split; [reflexivity |]. split; [simpl; lia |].
      rewrite take_0. exact Hcalls.
    + congruence.
  - apply lookup_ge_None in Hlookup. rewrite (drop_ge _ _ Hlookup).
    split; [reflexivity |]. left. split; [reflexivity |].
    simpl. rewrite app_nil_r. reflexivity.
Qed.

Lemma update_each_calls subject : forall os w w1,
  update_each class_of os subject w = (Returned, w1) ->
  calls w1 = calls w ++ map (fun o => (o, subject)) os.
Proof.
  induction os as [| o os IH]; intros w w1; simpl.
  - intros [= <-]. rewrite app_nil_r. reflexivity.
  - unfold and_then.
    pose proof (update_calls class_of o subject w) as Hcalls.
    destruct (update class_of o subject w) as [[| e |] wo]; simpl in *; try discriminate.
    intros Heach. rewrite (IH wo w1 Heach), Hcalls, <- app_assoc. reflexivity.
Qed.

(** A pass in which the observers before [o] return, leaving the registry
    as it is, and the call of [o] raises: the loop ends there, with the
    exception and the world of that call. *)
Lemma notify_loop_fault s o post e w2 : forall pre fuel i w w1,
  drop i (_observers s w) = pre ++ o :: post ->
  Forall (fun p => registry_neutral (class_of p) = true) pre ->
  (length pre < fuel)%nat ->
  update_each class_of pre (WeatherStationRef s) w = (Returned, w1) ->
  update class_of o (WeatherStationRef s) w1 = (Raised e, w2) ->
  notify_loop class_of fuel s i w = (Raised e, w2).
Proof.
  induction pre as [| p pre IH]; intros fuel i w w1 Hdrop Hneutral Hfuel Heach Hfault;
    (destruct fuel as [| fuel]; [simpl in Hfuel; lia |]);
    simpl in Hdrop; apply lookup_drop_head in Hdrop as [Hlookup Hdrop];
    simpl; rewrite Hlookup.
  - simpl in Heach. injection Heach as <-. rewrite Hfault. reflexivity.
  - apply Forall_cons in Hneutral as [Hp Hneutral].
    simpl in Heach. unfold and_then in Heach.
    pose proof (update_registry class_of p (WeatherStationRef s) Hp w) as Hreg.
    destruct (update class_of p (WeatherStationRef s) w) as [[| e' |] wp]; simpl in *;
      try discriminate.
    apply (IH fuel (S i) wp w1); try assumption.
    + unfold _observers in *. rewrite Hreg. exact Hdrop.
    + lia.
Qed.

(** Calling [update] on a list of observers in turn ends in one of the two
    ways of [updates_in_order]. *)
Lemma update_each_in_order s : forall os w0,
  updates_in_order class_of s os w0 (update_each class_of os (WeatherStationRef s) w0).
Proof.
  induction os as [| o os IH]; intros w0.
  - left. simpl. rewrite app_nil_r. repeat split.
  - simpl. unfold and_then.
    pose proof (update_calls class_of o (WeatherStationRef s) w0) as Hcalls.
    pose proof (update_ends o (WeatherStationRef s) w0) as Hends.
    destruct (update class_of o (WeatherStationRef s) w0) as [[| e |] w1] eqn:Hu;
      simpl in *; [| | congruence].
    + destruct (IH w1) as [(Hst & Heach & Hc) | (pre & o' & post & e & w1' & Hos & Hpre & Ho' & Hst & Hc)].
      * left. split; [exact Hst |].
        split; [simpl; unfold and_then; rewrite Hu; reflexivity |].
        rewrite Hc, Hcalls, <- app_assoc. reflexivity.
      * right. exists (o :: pre), o', post, e, w1'. split; [rewrite Hos; reflexivity |].
        split; [simpl; unfold and_then; rewrite Hu; exact Hpre |].
        split; [exact Ho' |]. split; [exact Hst |].
        rewrite Hc, Hcalls, <- app_assoc. reflexivity.
    + right. exists [], o, os, e, w0. split; [reflexivity |].
      split; [reflexivity |]. split; [exact Hu |]. split; [reflexivity |].
      exact Hcalls.
Qed.

(** Over observers that add and remove no observers, the loop of
    [notify_observers] is that: [update] on each entry of the registry in
    turn, up to the first call that raises. *)
Lemma neutral_pass_is_update_each s : forall fuel i w,
  Forall (fun o => registry_neutral (class_of o) = true) (drop i (_observers s w)) ->
  (length (drop i (_observers s w)) < fuel)%nat ->
  notify_loop class_of fuel s i w
  = update_each class_of (drop i (_observers s w)) (WeatherStationRef s) w.
Proof.
  induction fuel as [| fuel IH]; intros i w Hneutral Hfuel; [lia |].
  simpl. destruct (_observers s w !! i) as [o |] eqn:Hlookup.
  - rewrite (drop_S _ _ _ Hlookup) in Hneutral, Hfuel |- *.
    apply Forall_cons in Hneutral as [Ho Hrest]. simpl in Hfuel.
    simpl. unfold and_then.
    pose proof (update_registry class_of o (WeatherStationRef s) Ho w) as Hreg.
    destruct (update class_of o (WeatherStationRef s) w) as [[| e |] w1]; simpl in *;
      try reflexivity.
    assert (Hsame : _observers s w1 = _observers s w) by exact Hreg.
    rewrite <- Hsame. apply IH; rewrite Hsame; [exact Hrest | lia].
  - apply lookup_ge_None in Hlookup. rewrite (drop_ge _ _ Hlookup). reflexivity.
Qed.

End Ending.

(** C6, as the code has it. On a station whose observer sequence is empty,
    after [add_observer] for [o1], ..., [on], whose [update]s add and remove
    no observers, one [change_temperature] with a value of at most 4300
    digits calls [update] on [o1], [o2], ... in that order, once per
    occurrence: on all of them, and returns, when every call returns; and
    otherwise up to the first observer whose [update] raises, and raises
    what that call raised.  With a longer value it raises [ValueError] at
    line 82 and calls no [update]. *)
Theorem registration_order
    (class_of : ObserverId -> ObserverClass) (fuel : nat)
    (s : StationId) (os : list ObserverId) (t : Z) (w : World) :
  _observers s w = [] ->
  Forall (fun o => registry_neutral (class_of o) = true) os ->
  (length os < fuel)%nat ->
  (Py.fits t = false
   /\ (add_observers s os ;;; change_temperature class_of fuel s t) w
      = (Raised ValueError, snd (add_observers s os w))
   /\ calls (snd (add_observers s os w)) = calls w)
  \/ (Py.fits t = true
      /\ calls (snd (before_loop s t (snd (add_observers s os w)))) = calls w
      /\ updates_in_order class_of s os
           (snd (before_loop s t (snd (add_observers s os w))))
           ((add_observers s os ;;; change_temperature class_of fuel s t) w)).
Proof.
  intros Hempty Hneutral Hfuel.
  destruct (add_observers_spec s os w) as (Hst & Hreg & Hcalls).
  rewrite Hempty in Hreg. simpl in Hreg.
  destruct (add_observers s os w) as [st w1] eqn:Hadd. simpl in *. subst st.
  rewrite (and_then_returned _ (change_temperature class_of fuel s t) w w1 Hadd).
  destruct (Py.fits t) eqn:Hfits.
  - right. split; [reflexivity |].
    rewrite (change_temperature_loop class_of fuel s t w1 Hfits).
    assert (Hw : _observers s (snd (before_loop s t w1)) = os /\
                 calls (snd (before_loop s t w1)) = calls w).
    { rewrite (before_loop_world s t w1 Hfits). split; [exact Hreg | exact Hcalls]. }
    destruct Hw as [Hos Hc]. split; [exact Hc |].
    rewrite (neutral_pass_is_update_each class_of s fuel 0 (snd (before_loop s t w1))).
    + rewrite Hos, drop_0. apply update_each_in_order.
    + rewrite Hos, drop_0. exact Hneutral.
    + rewrite Hos, drop_0. exact Hfuel.
  - left. split; [reflexivity |].
    rewrite (change_temperature_too_long class_of fuel s t w1 Hfits).
    split; [reflexivity | exact Hcalls].
Qed.

(** The client code of lines 163-174, and a registry with a duplicate. *)
Lemma registration_order_witness :
  (fst ((add_observers weather_station [1%nat; 2%nat; 1%nat]
         ;;; change_temperature main_classes 4 weather_station 24) initial_world) = Returned
   /\ calls (snd ((add_observers weather_station [1%nat; 2%nat; 1%nat]
                   ;;; change_temperature main_classes 4 weather_station 24) initial_world))
      = updates_of weather_station [1%nat; 2%nat; 1%nat]).
Proof.
  destruct (registration_order main_classes 4 weather_station [1%nat; 2%nat; 1%nat] 24
              initial_world)
    as [(Hfits & _) | (_ & Hc & [(Hst & _ & Hcalls) | (pre & o & post & e & w1 & _ & _ & _ & Hst & _)])].
  - reflexivity.
  - repeat constructor.
  - simpl. lia.
  - discriminate Hfits.
  - split; [exact Hst |]. rewrite Hcalls, Hc. reflexivity.
  - vm_compute in Hst. discriminate Hst.
Defined.

(** C6, as the claim has it, fails: with a [StatisticsDisplay] attached
    before a [CurrentConditionsDisplay], [change_temperature(2 ** 1024)]
    raises [OverflowError] in the statistics (the average does not fit a
    float) and the display is not notified. *)
Lemma registration_order_needs_returning_updates :
  let w := snd (add_observers weather_station
                  [statistics_display; current_conditions_display] initial_world) in
  let out := change_temperature main_classes 3 weather_station (2 ^ 1024) w in
  _observers weather_station w = [statistics_display; current_conditions_display]
  /\ fst out = Raised OverflowError
  /\ calls (snd out) = [(statistics_display, WeatherStationRef weather_station)]
  /\ notifications_received current_conditions_display (snd out) = 0%nat.
Proof. vm_compute. repeat split. Qed.

(** C8. The claim fails on the code when an observer earlier in the order
    changes the registry during the pass.  With the registry [[2; 3; 4; 5]],
    where the [update] of [2] detaches [2] and the [update] of [4] raises,
    [change_temperature(24)] raises what [4] raised, the temperature is 24,
    and [5] is not notified; but [3], before [4] in the registry when the
    pass began and still in it afterwards, has not been notified either:
    the loop walks the registry itself and not a copy of it. *)
Theorem fault_after_self_removal (extra : nat) :
  let w := snd (add_observers weather_station [2%nat; 3%nat; 4%nat; 5%nat] initial_world) in
  let out := change_temperature removing_then_raising_classes (4 + extra)
               weather_station 24 w in
  _observers weather_station w = [2%nat; 3%nat; 4%nat; 5%nat]
  /\ fst out = Raised RuntimeError
  /\ calls (snd out) = updates_of weather_station [2%nat; 4%nat]
  /\ notifications_received 3%nat (snd out) = 0%nat
  /\ notifications_received 5%nat (snd out) = 0%nat
  /\ _observers weather_station (snd out) = [3%nat; 4%nat; 5%nat]
  /\ temperature weather_station (snd out) = Some 24.
Proof. vm_compute. repeat split. Qed.

(** ** What observers read during a pass *)

Global Instance observes_refl s t : Reflexive (observes s t).
Proof.
  intros w. split; [reflexivity |]. intros _. exists [], [].
  rewrite !app_nil_r. repeat split; constructor.
Qed.

Global Instance observes_trans s t : Transitive (observes s t).
Proof.
  intros a b c [Hab Hab'] [Hbc Hbc']. split; [congruence |].
  intros Ha. destruct (Hab' Ha) as (l1 & h1 & Hout1 & Hl1 & Hhist1 & Hh1).
  rewrite <- Hab in Ha. destruct (Hbc' Ha) as (l2 & h2 & Hout2 & Hl2 & Hhist2 & Hh2).
  exists (l1 ++ l2), (h1 ++ h2).
  rewrite Hout2, Hout1, Hhist2, Hhist1, <- !app_assoc.
  repeat split; apply Forall_app; split; assumption.
Qed.



(** The only line [statistics_line] builds is a statistics line. *)
Lemma statistics_line_shape (temps : list (option Z)) (l : Line) :
  statistics_line temps = Ok l -> exists avg mx mn, l = Statistics avg mx mn.
Proof.
  unfold statistics_line.
  destruct (Py.sum temps) as [total | e]; simpl; [| discriminate].
  destruct (Py.true_divide total (Z.of_nat (length temps))) as [avg | e];
    simpl; [| discriminate].
  destruct (Py.max temps) as [mx | e]; simpl; [| discriminate].
  destruct (Py.min temps) as [mn | e]; simpl; [| discriminate].
  intros [= <-]. eauto.
Qed.

Section Reading.

Variable class_of : ObserverId -> ObserverClass.








Global Instance only_updates_by_refl s : Reflexive (only_updates_by s).
Proof. intros w. exists []. simpl. rewrite app_nil_r. reflexivity. Qed.

Global Instance only_updates_by_trans s : Transitive (only_updates_by s).
Proof.
  intros a b c [l1 H1] [l2 H2]. exists (l1 ++ l2).
  rewrite H2, H1. unfold updates_of. rewrite map_app, app_assoc. reflexivity.
Qed.




End Reading.




(** ** A pass that does not end *)

Lemma self_adding_loop_never_ends (s : StationId) : forall fuel i w,
  (i < length (_observers s w))%nat ->
  fst (notify_loop self_adding_classes fuel s i w) = OutOfFuel.
Proof.
  induction fuel as [| fuel IH]; intros i w Hi; simpl; [reflexivity |].
  destruct (lookup_lt_is_Some_2 (_observers s w) i Hi) as [o Ho]. rewrite Ho.
  change (update self_adding_classes o (WeatherStationRef s) w)
    with (Returned,
          mkWorld (WeatherStation_observers w ++ [o]) (instance_temperature w)
                  (StatisticsDisplay_temperatures w) (stdout w ++ [ObserverAdded])
                  (calls w ++ [(o, WeatherStationRef s)])).
  apply IH. unfold _observers in *. simpl. rewrite length_app. simpl. lia.
Qed.

(** X13. When every observer attaches itself again in its [update], a
    [change_temperature] on a station with an observer, with a value that
    gets past line 82 (at most 4300 digits), never returns: the loop reads
    the registry it is being appended to. *)
Lemma self_adding_pass_never_ends (fuel : nat) (s : StationId) (t : Z) (w : World) :
  Py.fits t = true ->
  _observers s w <> [] ->
  fst (change_temperature self_adding_classes fuel s t w) = OutOfFuel.
Proof.
  intros Hfits Hne. rewrite (change_temperature_loop _ fuel s t w Hfits).
  apply self_adding_loop_never_ends.
  rewrite (before_loop_world s t w Hfits). unfold _observers in *. simpl.
  destruct (WeatherStation_observers w); [congruence | simpl; lia].
Qed.

(** * Further properties of the module *)

(** ** Attaching and detaching *)

(** X1. [remove_observer] detaches the first occurrence of the observer and
    no other: with the registry [l1 ++ o :: l2], [o] not in [l1], the call
    returns, the registry is [l1 ++ l2], one line is printed, and
    temperatures and history are as before. *)
Theorem remove_observer_first_occurrence
    (s : StationId) (o : ObserverId) (w : World) (l1 l2 : list ObserverId) :
  _observers s w = l1 ++ o :: l2 ->
  o ∉ l1 ->
  remove_observer s o w
  = (Returned,
     mkWorld (l1 ++ l2) (instance_temperature w) (StatisticsDisplay_temperatures w)
             (stdout w ++ [ObserverRemoved]) (calls w)).
Proof.
  intros Hreg Hnot. unfold remove_observer, and_then, remove_listed_observer.
  rewrite Hreg, (list_remove_present o l1 l2 Hnot). reflexivity.
Qed.

(** An observer attached twice, with another one in between. *)
Lemma remove_observer_first_occurrence_witness :
  _observers weather_station
    (snd (remove_observer weather_station 1%nat
            (snd (add_observers weather_station [1%nat; 2%nat; 1%nat] initial_world))))
  = [2%nat; 1%nat].
Proof.
  rewrite (remove_observer_first_occurrence weather_station 1%nat
             (snd (add_observers weather_station [1%nat; 2%nat; 1%nat] initial_world))
             [] [2%nat; 1%nat]).
  - reflexivity.
  - reflexivity.
  - intros Hin. apply list_elem_of_In in Hin. exact Hin.
Defined.

(** X2. Attaching an observer that is not in the registry and detaching it
    again gives the registry back: both calls return and the sequence of
    observers is the one before. *)
Theorem add_then_remove_restores
    (s : StationId) (o : ObserverId) (w : World) :
  o ∉ _observers s w ->
  fst ((add_observer s o ;;; remove_observer s o) w) = Returned
  /\ _observers s (snd ((add_observer s o ;;; remove_observer s o) w)) = _observers s w
  /\ stdout (snd ((add_observer s o ;;; remove_observer s o) w))
     = stdout w ++ [ObserverAdded; ObserverRemoved].
Proof.
  intros Hnot.
  unfold add_observer, remove_observer, and_then, append_observer, remove_listed_observer,
    print, _observers, mutate_observers in *. simpl.
  pose proof (list_remove_present o (WeatherStation_observers w) [] Hnot) as Hrem.
  rewrite Hrem. simpl. rewrite app_nil_r, <- app_assoc. repeat split.
Qed.

Lemma add_then_remove_restores_witness :
  _observers weather_station
    (snd ((add_observer weather_station 2%nat ;;; remove_observer weather_station 2%nat)
            (snd (add_observer weather_station 1%nat initial_world))))
  = [1%nat].
Proof.
  apply (add_then_remove_restores weather_station 2%nat
           (snd (add_observer weather_station 1%nat initial_world))).
  intros Hin. apply list_elem_of_In in Hin. simpl in Hin.
  destruct Hin as [Heq | []]. discriminate Heq.
Defined.

(** X3. Attaching an observer that is already in the registry and then
    detaching it does not give the registry back: the earlier occurrence is
    the one detached, so the observer has moved to the end of the
    sequence. *)
Theorem add_then_remove_moves_to_end
    (s : StationId) (o : ObserverId) (w : World) (l1 l2 : list ObserverId) :
  _observers s w = l1 ++ o :: l2 ->
  o ∉ l1 ->
  fst ((add_observer s o ;;; remove_observer s o) w) = Returned
  /\ _observers s (snd ((add_observer s o ;;; remove_observer s o) w)) = l1 ++ l2 ++ [o].
Proof.
  intros Hreg Hnot.
  unfold add_observer, remove_observer, and_then, append_observer, remove_listed_observer,
    print, _observers, mutate_observers in *. simpl.
  rewrite Hreg, <- app_assoc. simpl.
  rewrite (list_remove_present o l1 (l2 ++ [o]) Hnot). simpl. split; reflexivity.
Qed.

Lemma add_then_remove_moves_to_end_witness :
  _observers weather_station
    (snd ((add_observer weather_station 1%nat ;;; remove_observer weather_station 1%nat)
            (snd (add_observers weather_station [1%nat; 2%nat] initial_world))))
  = [2%nat; 1%nat].
Proof.
  apply (add_then_remove_moves_to_end weather_station 1%nat
           (snd (add_observers weather_station [1%nat; 2%nat] initial_world))
           [] [2%nat]).
  - reflexivity.
  - intros Hin. apply list_elem_of_In in Hin. exact Hin.
Defined.

(** X4. [add_observer] never fails and never looks at what is attached
    already: any run of [add_observer] calls returns, extends the sequence
    by the observers in the order of the calls, duplicates included, prints
    one line per call, and leaves temperatures and history alone. *)
Theorem add_observers_appends (s : StationId) (os : list ObserverId) (w : World) :
  add_observers s os w
  = (Returned,
     mkWorld (WeatherStation_observers w ++ os) (instance_temperature w)
             (StatisticsDisplay_temperatures w)
             (stdout w ++ replicate (length os) ObserverAdded) (calls w)).
Proof.
  revert w. induction os as [| o os IH]; intros w; simpl.
  - rewrite !app_nil_r. destruct w; reflexivity.
  - unfold and_then at 1. unfold add_observer, and_then, append_observer, print. simpl.
    rewrite IH. simpl. unfold _observers. rewrite <- !app_assoc. reflexivity.
Qed.

(** ** Who is notified *)

Lemma received_updates_of (s : StationId) (o : ObserverId) (l : list ObserverId) :
  length (filter (fun c : ObserverId * SubjectRef => c.1 = o) (updates_of s l))
  = occurrences o l.
Proof.
  unfold occurrences. induction l as [| x l IH]; simpl; [reflexivity |].
  rewrite !filter_cons. simpl. destruct (decide (x = o)); simpl; rewrite IH; reflexivity.
Qed.

Lemma received_after (s : StationId) (o : ObserverId) (w w' : World) (l : list ObserverId) :
  calls w' = calls w ++ updates_of s l ->
  notifications_received o w' = (notifications_received o w + occurrences o l)%nat.
Proof.
  intros Hcalls. unfold notifications_received.
  rewrite Hcalls, filter_app, length_app, received_updates_of. reflexivity.
Qed.

Lemma occurrences_absent (o : ObserverId) (l : list ObserverId) :
  o ∉ l -> occurrences o l = 0%nat.
Proof.
  unfold occurrences. induction l as [| x l IH]; intros Hnot; [reflexivity |].
  rewrite filter_cons. destruct (decide (x = o)) as [-> | Hne].
  - exfalso. apply Hnot. left.
  - apply IH. intros Hin. apply Hnot. right. exact Hin.
Qed.

Lemma not_elem_of_take (o : ObserverId) (l : list ObserverId) (n : nat) :
  o ∉ l -> o ∉ take n l.
Proof.
  intros Hnot Hin. apply Hnot. exact (subseteq_take n l o Hin).
Qed.

(** X5. When no observer in the registry adds or removes observers in its
    [update], a notification pass that returns has called [update] on every
    observer once for each time it occurs in the registry: an observer
    attached twice is updated twice. *)
Theorem pass_updates_once_per_occurrence
    (class_of : ObserverId -> ObserverClass) (fuel : nat) (s : StationId) (w : World)
    (o : ObserverId) :
  Forall (fun p => registry_neutral (class_of p) = true) (_observers s w) ->
  (length (_observers s w) < fuel)%nat ->
  fst (notify_observers class_of fuel s w) = Returned ->
  notifications_received o (snd (notify_observers class_of fuel s w))
  = (notifications_received o w + occurrences o (_observers s w))%nat.
Proof.
  intros Hneutral Hfuel Hst.
  change (notify_observers class_of fuel s w)
    with (notify_loop class_of fuel s 0 (snd (print Notifying w))) in *.
  destruct (notify_loop_in_order class_of s fuel 0 (snd (print Notifying w)))
    as (_ & [[_ Hcalls] | (e & k & Hraised & _)]).
  - rewrite drop_0. exact Hneutral.
  - rewrite drop_0. exact Hfuel.
  - rewrite drop_0 in Hcalls. apply (received_after s o _ _ _ Hcalls).
  - congruence.
Qed.

Lemma pass_updates_once_per_occurrence_witness :
  notifications_received 1%nat
    (snd (notify_observers main_classes 4 weather_station
            (snd (add_observers weather_station [1%nat; 3%nat; 1%nat] initial_world))))
  = 2%nat.
Proof.
  rewrite (pass_updates_once_per_occurrence main_classes 4 weather_station
             (snd (add_observers weather_station [1%nat; 3%nat; 1%nat] initial_world))
             1%nat).
  - reflexivity.
  - repeat constructor.
  - simpl. lia.
  - reflexivity.
Defined.

(** X6. When no observer in the registry adds or removes observers in its
    [update], [change_temperature] never calls [update] on an observer that
    is not in the registry, however the call ends. *)
Theorem unregistered_observer_not_notified
    (class_of : ObserverId -> ObserverClass) (fuel : nat) (s : StationId) (t : Z)
    (w : World) (o : ObserverId) :
  Forall (fun p => registry_neutral (class_of p) = true) (_observers s w) ->
  (length (_observers s w) < fuel)%nat ->
  o ∉ _observers s w ->
  fst (change_temperature class_of fuel s t w) <> OutOfFuel
  /\ notifications_received o (snd (change_temperature class_of fuel s t w))
     = notifications_received o w.
Proof.
  intros Hneutral Hfuel Hnot.
  destruct (Py.fits t) eqn:Hfits;
    [| rewrite (change_temperature_too_long class_of fuel s t w Hfits);
       split; [discriminate | reflexivity]].
  rewrite (change_temperature_loop class_of fuel s t w Hfits).
  pose proof (before_loop_world s t w Hfits) as Hentry.
  assert (Hreg : _observers s (snd (before_loop s t w)) = _observers s w)
    by (rewrite Hentry; reflexivity).
  destruct (notify_loop_in_order class_of s fuel 0 (snd (before_loop s t w)))
    as (_ & Hcases).
  - rewrite Hreg, drop_0. exact Hneutral.
  - rewrite Hreg, drop_0. exact Hfuel.
  - rewrite Hreg, drop_0 in Hcases.
    assert (Hc : calls (snd (before_loop s t w)) = calls w)
      by (rewrite Hentry; reflexivity).
    rewrite Hc in Hcases.
    destruct Hcases as [[Hst Hcalls] | (e & k & Hst & _ & Hcalls)];
      rewrite Hst; (split; [discriminate |]);
      rewrite (received_after s o _ _ _ Hcalls), occurrences_absent; try lia.
    + exact Hnot.
    + apply not_elem_of_take. exact Hnot.
Qed.

Lemma unregistered_observer_not_notified_witness :
  notifications_received 3%nat
    (snd (change_temperature main_classes 3 weather_station 24
            (snd (main_setup initial_world))))
  = 0%nat.
Proof.
  apply (unregistered_observer_not_notified main_classes 3 weather_station 24
           (snd (main_setup initial_world)) 3%nat).
  - repeat constructor.
  - simpl. lia.
  - intros Hin. apply list_elem_of_In in Hin. simpl in Hin.
    destruct Hin as [Heq | [Heq | []]]; discriminate Heq.
Defined.

(** X7. Detaching an observer that occurs once in the registry and then
    changing the temperature: when the observers that remain add and remove
    no observers in their [update], the detached observer is not called.
    A value of more than 4300 digits is refused at line 82 with
    [ValueError], before anyone is notified.  Any other value starts the
    pass with the calls as they were: the observers that remain are updated
    in their order, all of them when every [update] returns, and otherwise
    up to and including the first one whose [update] raises, whose exception
    is the result. *)
Theorem removed_observer_not_notified
    (class_of : ObserverId -> ObserverClass) (fuel : nat) (s : StationId) (t : Z)
    (w : World) (o : ObserverId) (l1 l2 : list ObserverId) :
  _observers s w = l1 ++ o :: l2 ->
  o ∉ l1 ->
  o ∉ l2 ->
  Forall (fun p => registry_neutral (class_of p) = true) (l1 ++ l2) ->
  (length (l1 ++ l2) < fuel)%nat ->
  notifications_received o
    (snd ((remove_observer s o ;;; change_temperature class_of fuel s t) w))
  = notifications_received o w
  /\ _observers s (snd (remove_observer s o w)) = l1 ++ l2
  /\ ((Py.fits t = false
       /\ (remove_observer s o ;;; change_temperature class_of fuel s t) w
          = (Raised ValueError, snd (remove_observer s o w))
       /\ calls (snd (remove_observer s o w)) = calls w)
      \/ (Py.fits t = true
          /\ calls (snd (before_loop s t (snd (remove_observer s o w)))) = calls w
          /\ updates_in_order class_of s (l1 ++ l2)
               (snd (before_loop s t (snd (remove_observer s o w))))
               ((remove_observer s o ;;; change_temperature class_of fuel s t) w))).
Proof.
  intros Hreg Hnot1 Hnot2 Hneutral Hfuel.
  assert (Hrem : remove_observer s o w
                 = (Returned,
                    mkWorld (l1 ++ l2) (instance_temperature w)
                            (StatisticsDisplay_temperatures w)
                            (stdout w ++ [ObserverRemoved]) (calls w))).
  { unfold remove_observer, and_then, remove_listed_observer.
    rewrite Hreg, (list_remove_present o l1 l2 Hnot1). reflexivity. }
  rewrite (and_then_returned _ (change_temperature class_of fuel s t) w _ Hrem).
  rewrite Hrem. simpl snd.
  match goal with
  | |- context [change_temperature class_of fuel s t ?w1] =>
      assert (Hobs : _observers s w1 = l1 ++ l2) by reflexivity;
      assert (Hc : calls w1 = calls w) by reflexivity;
      generalize dependent w1
  end.
  intros w1 _ Hobs Hc.
  assert (Hnot : o ∉ l1 ++ l2).
  { intros Hin. apply elem_of_app in Hin as [Hin | Hin]; auto. }
  split; [| split; [exact Hobs |]]; destruct (Py.fits t) eqn:Hfits.
  - rewrite (change_temperature_loop class_of fuel s t w1 Hfits).
    pose proof (before_loop_world s t w1 Hfits) as Hentry.
    destruct (notify_loop_in_order class_of s fuel 0 (snd (before_loop s t w1)))
      as (_ & Hcases).
    + rewrite Hentry, drop_0. unfold _observers in *. simpl. rewrite Hobs. exact Hneutral.
    + rewrite Hentry, drop_0. unfold _observers in *. simpl. rewrite Hobs. exact Hfuel.
    + assert (Hobs0 : _observers s (snd (before_loop s t w1)) = l1 ++ l2)
        by (rewrite Hentry; exact Hobs).
      assert (Hc0 : calls (snd (before_loop s t w1)) = calls w)
        by (rewrite Hentry; exact Hc).
      rewrite Hobs0, drop_0, Hc0 in Hcases.
      destruct Hcases as [[_ Hcalls] | (e & k & _ & _ & Hcalls)];
        rewrite (received_after s o w _ _ Hcalls), occurrences_absent; try lia.
      * exact Hnot.
      * apply not_elem_of_take. exact Hnot.
  - rewrite (change_temperature_too_long class_of fuel s t w1 Hfits). simpl.
    unfold notifications_received. rewrite Hc. reflexivity.
  - right. split; [reflexivity |].
    rewrite (change_temperature_loop class_of fuel s t w1 Hfits).
    pose proof (before_loop_world s t w1 Hfits) as Hentry.
    assert (Hobs0 : _observers s (snd (before_loop s t w1)) = l1 ++ l2)
      by (rewrite Hentry; exact Hobs).
    assert (Hc0 : calls (snd (before_loop s t w1)) = calls w)
      by (rewrite Hentry; exact Hc).
    split; [exact Hc0 |].
    rewrite (neutral_pass_is_update_each class_of s fuel 0 (snd (before_loop s t w1)));
      rewrite Hobs0, drop_0; try assumption.
    apply update_each_in_order.
  - left. split; [reflexivity |].
    rewrite (change_temperature_too_long class_of fuel s t w1 Hfits).
    split; [reflexivity | exact Hc].
Qed.

(** Lines 179-180 of the program: the display is detached, the statistics
    stay. *)
Lemma removed_observer_not_notified_witness :
  notifications_received current_conditions_display
    (snd ((remove_observer weather_station current_conditions_display
           ;;; change_temperature main_classes 2 weather_station 21)
            (snd (main_setup initial_world))))
  = 0%nat.
Proof.
  apply (removed_observer_not_notified main_classes 2 weather_station 21
           (snd (main_setup initial_world)) current_conditions_display
           [] [statistics_display]).
  - reflexivity.
  - intros Hin. apply list_elem_of_In in Hin. exact Hin.
  - intros Hin. apply list_elem_of_In in Hin. simpl in Hin.
    destruct Hin as [Heq | []]. discriminate Heq.
  - repeat constructor.
  - simpl. lia.
Defined.

(** ** The history of the statistics *)

Global Instance same_history_refl : Reflexive same_history.
Proof. intros w. reflexivity. Qed.
Global Instance same_history_trans : Transitive same_history.
Proof. intros a b c H1 H2. unfold same_history in *. congruence. Qed.

Lemma print_history l : preserves same_history (print l).
Proof. intros w. unfold print. destruct (printable l); reflexivity. Qed.

Lemma run_actions_history s body : preserves same_history (run_actions s body).
Proof.
  induction body as [| a body IH]; simpl.
  - apply preserves_ret, _.
  - apply preserves_and_then; [apply _ | | exact IH].
    destruct a; simpl.
    + apply preserves_and_then; [apply _ | |]; intros w; reflexivity.
    + apply preserves_and_then; [apply _ | | intros w; reflexivity].
      intros w. unfold remove_listed_observer.
      destruct (Py.list_remove o (_observers s w)); reflexivity.
    + intros w. apply print_history.
    + apply preserves_raise, _.
Qed.

Section History.

Variable class_of : ObserverId -> ObserverClass.

Lemma dispatch_update_history o subject w :
  length (StatisticsDisplay_temperatures (snd (dispatch_update class_of o subject w)))
  = (length (StatisticsDisplay_temperatures w)
     + (if is_statistics_call class_of (o, subject) then 1 else 0))%nat.
Proof.
  unfold dispatch_update, is_statistics_call. simpl.
  destruct (class_of o) as [| | body], subject as [s |]; simpl; try lia.
  - rewrite (print_history _ w). lia.
  - unfold and_then, append_temperature, _display_statistics, _temperatures. simpl.
    destruct (statistics_line (StatisticsDisplay_temperatures w ++ [temperature s w]));
      [rewrite print_history |]; simpl; rewrite length_app; reflexivity.
  - rewrite (run_actions_history s body w). lia.
Qed.

Lemma update_keeps_history_count o subject w :
  history_matches_calls class_of w ->
  history_matches_calls class_of (snd (update class_of o subject w)).
Proof.
  unfold history_matches_calls, statistics_calls. intros Hinv.
  rewrite update_calls, filter_app, length_app.
  unfold update.
  rewrite (and_then_returned _ _ w
             (mkWorld (WeatherStation_observers w) (instance_temperature w)
                      (StatisticsDisplay_temperatures w) (stdout w)
                      (calls w ++ [(o, subject)]))) by reflexivity.
  rewrite dispatch_update_history. simpl. rewrite Hinv.
  rewrite filter_cons, filter_nil.
  destruct (is_statistics_call class_of (o, subject)); reflexivity.
Qed.

Lemma notify_loop_keeps_history_count fuel s : forall i w,
  history_matches_calls class_of w ->
  history_matches_calls class_of (snd (notify_loop class_of fuel s i w)).
Proof.
  induction fuel as [| fuel IH]; intros i w Hinv; simpl; [exact Hinv |].
  destruct (_observers s w !! i) as [o |]; [| exact Hinv].
  pose proof (update_keeps_history_count o (WeatherStationRef s) w Hinv) as Hu.
  destruct (update class_of o (WeatherStationRef s) w) as [[| e |] w1]; simpl in *;
    try assumption.
  apply IH. exact Hu.
Qed.

Lemma call_keeps_history_count fuel c w :
  history_matches_calls class_of w ->
  history_matches_calls class_of (snd (call class_of fuel c w)).
Proof.
  intros Hinv. destruct c as [s o | s o | s | s t]; simpl.
  - exact Hinv.
  - unfold remove_observer, and_then, remove_listed_observer.
    destruct (Py.list_remove o (_observers s w)); exact Hinv.
  - apply (notify_loop_keeps_history_count fuel s 0 (snd (print Notifying w))). exact Hinv.
  - destruct (Py.fits t) eqn:Hfits.
    + rewrite (change_temperature_loop class_of fuel s t w Hfits).
      apply notify_loop_keeps_history_count.
      rewrite (before_loop_world s t w Hfits). exact Hinv.
    + rewrite (change_temperature_too_long class_of fuel s t w Hfits). exact Hinv.
Qed.

Lemma run_keeps_history_count fuel cs : forall w,
  history_matches_calls class_of w ->
  history_matches_calls class_of (snd (run class_of fuel cs w)).
Proof.
  induction cs as [| c cs IH]; intros w Hinv; simpl; [exact Hinv |].
  pose proof (call_keeps_history_count fuel c w Hinv) as Hc.
  destruct (call class_of fuel c w) as [[| e |] w1]; simpl in *;
    try (apply IH; exact Hc).
  exact Hc.
Qed.

End History.

(** X8. The history is one list for all [StatisticsDisplay] instances (line
    138), and every call of [update] on any of them by a [WeatherStation]
    appends one reading to it before anything can fail; nothing ever removes
    an entry.  So after any run of client calls, however each call ended,
    the length of the history is the total number of such calls received by
    all the instances together. *)
Theorem history_counts_all_statistics_updates
    (class_of : ObserverId -> ObserverClass) (fuel : nat) (cs : list Call) :
  length (StatisticsDisplay_temperatures (snd (run class_of fuel cs initial_world)))
  = statistics_calls class_of (snd (run class_of fuel cs initial_world)).
Proof.
  apply (run_keeps_history_count class_of fuel cs initial_world). reflexivity.
Qed.

(** ** How the statistics fail *)

Lemma sum_from_none (acc : Z) (l : list (option Z)) :
  None ∈ l -> Py.sum_from acc l = Err TypeError.
Proof.
  revert acc. induction l as [| [z |] l IH]; intros acc Hin; simpl.
  - apply elem_of_nil in Hin. destruct Hin.
  - apply IH. apply elem_of_cons in Hin as [Heq | Hin]; [discriminate Heq | exact Hin].
  - reflexivity.
Qed.

Lemma readings_without_none (l : list (option Z)) :
  None ∉ l -> exists zs, l = map Some zs.
Proof.
  induction l as [| [z |] l IH]; intros Hnot.
  - exists []. reflexivity.
  - destruct IH as [zs ->].
    + intros Hin. apply Hnot. right. exact Hin.
    + exists (z :: zs). reflexivity.
  - exfalso. apply Hnot. left.
Qed.

Lemma true_divide_cases (a b : Z) :
  b <> 0 ->
  Py.true_divide a b = Err OverflowError \/ exists f, Py.true_divide a b = Ok f.
Proof.
  intros Hb. unfold Py.true_divide.
  destruct (SFdiv_core_binary Py.prec Py.emax (Z.abs a) 0 (Z.abs b) 0) as [[mz ez] lz].
  destruct a, b; try congruence; try (right; eexists; reflexivity);
    match goal with
    | |- context [binary_round_aux ?p ?e ?s ?m ?x ?l] =>
        destruct (binary_round_aux p e s m x l);
          first [left; reflexivity | right; eexists; reflexivity]
    end.
Qed.

Lemma fits_between (mn z mx : Z) :
  mn <= z <= mx -> Py.fits mn = true -> Py.fits mx = true -> Py.fits z = true.
Proof.
  unfold Py.fits. rewrite !Z.ltb_lt. lia.
Qed.

(** The ways the statistics of lines 154-156 can go, by the list they work
    on: on a non-empty list of numbers the line shows the greatest and the
    smallest of them. *)
Lemma statistics_line_cases (temps : list (option Z)) :
  (temps = [] /\ statistics_line temps = Err ZeroDivisionError)
  \/ (None ∈ temps /\ statistics_line temps = Err TypeError)
  \/ (temps <> [] /\ (None ∉ temps)
      /\ (statistics_line temps = Err OverflowError
          \/ exists avg mx mn,
               statistics_line temps = Ok (Statistics avg mx mn)
               /\ Some mx ∈ temps /\ Some mn ∈ temps
               /\ (forall z, Some z ∈ temps -> mn <= z <= mx))).
Proof.
  destruct temps as [| x temps]; [left; split; reflexivity | right].
  destruct (decide (None ∈ x :: temps)) as [Hin | Hnot].
  - left. split; [exact Hin |]. unfold statistics_line, Py.sum.
    rewrite (sum_from_none 0 _ Hin). reflexivity.
  - right. split; [discriminate |]. split; [exact Hnot |].
    destruct (readings_without_none _ Hnot) as [zs Hzs]. rewrite Hzs.
    destruct zs as [| z zs]; [discriminate Hzs |].
    unfold statistics_line, Py.sum. rewrite sum_from_ints, length_map. cbn [rbind].
    destruct (true_divide_cases (fold_left Z.add (z :: zs) 0)
                (Z.of_nat (length (z :: zs)))) as [Hdiv | [f Hdiv]].
    + simpl. lia.
    + rewrite Hdiv. left. reflexivity.
    + rewrite Hdiv. right. simpl.
      destruct (extremum_max_ints z zs) as (mx & -> & Hmx & Hmax).
      destruct (extremum_min_ints z zs) as (mn & -> & Hmn & Hmin).
      simpl. exists (Py.format_1f f), mx, mn. split; [reflexivity |].
      change (Some z :: map Some zs) with (map Some (z :: zs)).
      split; [apply list_elem_of_fmap_2; exact Hmx |].
      split; [apply list_elem_of_fmap_2; exact Hmn |].
      intros y Hy. apply list_elem_of_fmap in Hy as (y' & Heq & Hy').
      injection Heq as ->.
      rewrite Forall_forall in Hmax, Hmin. split; [apply Hmin | apply Hmax]; exact Hy'.
Qed.

(** X9. [_display_statistics] (lines 150-157) always ends, and fails in
    four ways only, each decided by the list: [ZeroDivisionError] exactly on
    the empty list; [TypeError] exactly when the list holds a [None];
    [OverflowError] only on a non-empty list of numbers (when the average is
    beyond the largest float); and [ValueError] only on a non-empty list of
    numbers one of which has more than 4300 digits (the greatest or the
    smallest cannot be shown at line 157).  It returns, having printed one
    line, only for a non-empty list of numbers of at most 4300 digits
    each. *)
Theorem statistics_failures (self : ObserverId) (w : World) :
  (fst (_display_statistics self w) = Raised ZeroDivisionError
   <-> _temperatures self w = [])
  /\ (fst (_display_statistics self w) = Raised TypeError
      <-> None ∈ _temperatures self w)
  /\ (forall e, fst (_display_statistics self w) = Raised e ->
                e = ZeroDivisionError \/ e = TypeError \/ e = OverflowError
                \/ e = ValueError)
  /\ fst (_display_statistics self w) <> OutOfFuel
  /\ (fst (_display_statistics self w) = Raised OverflowError ->
      _temperatures self w <> [] /\ None ∉ _temperatures self w)
  /\ (fst (_display_statistics self w) = Raised ValueError ->
      _temperatures self w <> [] /\ (None ∉ _temperatures self w)
      /\ exists z, Some z ∈ _temperatures self w /\ Py.fits z = false)
  /\ (fst (_display_statistics self w) = Returned ->
      _temperatures self w <> [] /\ (None ∉ _temperatures self w)
      /\ (forall z, Some z ∈ _temperatures self w -> Py.fits z = true)
      /\ exists l, stdout (snd (_display_statistics self w)) = stdout w ++ [l]).
Proof.
  unfold _display_statistics.
  destruct (statistics_line_cases (_temperatures self w))
    as [[Hnil Hres] | [[Hin Hres] | (Hne & Hnot & [Hres | Hres])]].
  - rewrite Hres, Hnil. simpl.
    repeat split; intros; try congruence; try discriminate; auto.
    + match goal with H : None ∈ [] |- _ => apply elem_of_nil in H; destruct H end.
    + match goal with H : Raised _ = Raised _ |- _ => injection H as <- end. auto.
  - rewrite Hres. simpl.
    assert (Hne : _temperatures self w <> []).
    { intros Hnil. rewrite Hnil in Hin. apply elem_of_nil in Hin. exact Hin. }
    repeat split; intros; try congruence; try discriminate; auto.
    match goal with H : Raised _ = Raised _ |- _ => injection H as <- end. auto.
  - rewrite Hres. simpl.
    repeat split; intros; try congruence; try discriminate; auto.
    match goal with H : Raised _ = Raised _ |- _ => injection H as <- end. auto.
  - destruct Hres as (avg & mx & mn & Hres & Hmx & Hmn & Hbetween).
    rewrite Hres. unfold print. simpl.
    destruct (Py.fits mx) eqn:Hfmx; [destruct (Py.fits mn) eqn:Hfmn |]; simpl;
      repeat split; intros; try congruence; try discriminate; auto;
      try (match goal with H : Raised _ = Raised _ |- _ => injection H as <- end; auto).
    + apply (fits_between mn z mx); auto.
    + eexists. reflexivity.
    + exists mn. split; assumption.
    + exists mx. split; assumption.
Qed.

Global Instance history_extends_refl : Reflexive history_extends.
Proof. intros w. exists []. rewrite app_nil_r. reflexivity. Qed.
Global Instance history_extends_trans : Transitive history_extends.
Proof.
  intros a b c [m1 H1] [m2 H2]. exists (m1 ++ m2).
  rewrite H2, H1, app_assoc. reflexivity.
Qed.

Lemma history_extends_same (w w' : World) :
  StatisticsDisplay_temperatures w' = StatisticsDisplay_temperatures w ->
  history_extends w w'.
Proof. intros Hsame. exists []. rewrite app_nil_r. exact Hsame. Qed.

Lemma same_history_extends (m : Method) :
  preserves same_history m -> preserves history_extends m.
Proof. intros Hm w. exists []. rewrite app_nil_r. apply Hm. Qed.

Section Growth.

Variable class_of : ObserverId -> ObserverClass.

Lemma update_history_extends o subject :
  preserves history_extends (update class_of o subject).
Proof.
  apply preserves_and_then;
    [apply _ | intros w; apply history_extends_same; reflexivity |].
  unfold dispatch_update. destruct (class_of o) as [| | body], subject as [s |]; simpl;
    try (apply preserves_ret, _).
  - intros w. apply same_history_extends, print_history.
  - apply preserves_and_then; [apply _ | |].
    + intros w. exists [temperature s w]. reflexivity.
    + intros w. unfold _display_statistics.
      destruct (statistics_line (_temperatures o w));
        [apply same_history_extends, print_history
        | apply history_extends_same; reflexivity].
  - apply same_history_extends, run_actions_history.
Qed.

Lemma notify_loop_history_extends fuel s : forall i,
  preserves history_extends (notify_loop class_of fuel s i).
Proof.
  induction fuel as [| fuel IH]; intros i w; simpl; [reflexivity |].
  destruct (_observers s w !! i) as [o |]; [| reflexivity].
  pose proof (update_history_extends o (WeatherStationRef s) w) as Hu.
  destruct (update class_of o (WeatherStationRef s) w) as [[| e |] w1]; simpl in *;
    try assumption.
  transitivity w1; [assumption | apply IH].
Qed.

Lemma call_history_extends fuel c : preserves history_extends (call class_of fuel c).
Proof.
  destruct c as [s o | s o | s | s t]; simpl.
  - intros w. apply history_extends_same. reflexivity.
  - intros w. unfold remove_observer, and_then, remove_listed_observer.
    destruct (Py.list_remove o (_observers s w)); apply history_extends_same; reflexivity.
  - intros w. apply (notify_loop_history_extends fuel s 0 (snd (print Notifying w))).
  - intros w. destruct (Py.fits t) eqn:Hfits.
    + rewrite (change_temperature_loop class_of fuel s t w Hfits).
      pose proof (notify_loop_history_extends fuel s 0 (snd (before_loop s t w))) as Hl.
      rewrite (before_loop_world s t w Hfits) in Hl |- *. exact Hl.
    + rewrite (change_temperature_too_long class_of fuel s t w Hfits). reflexivity.
Qed.

Lemma run_history_extends fuel cs : preserves history_extends (run class_of fuel cs).
Proof.
  induction cs as [| c cs IH]; intros w; simpl; [reflexivity |].
  pose proof (call_history_extends fuel c w) as Hc.
  destruct (call class_of fuel c w) as [[| e |] w1]; simpl in *;
    try (transitivity w1; [exact Hc | apply IH]).
  exact Hc.
Qed.

End Growth.

Lemma update_with_none_raises (o : ObserverId) (s : StationId) (w : World) :
  None ∈ _temperatures o w \/ temperature s w = None ->
  StatisticsDisplay_update o (WeatherStationRef s) w
  = (Raised TypeError,
     mutate_temperatures o (_temperatures o w ++ [temperature s w]) w).
Proof.
  intros Hnone.
  unfold StatisticsDisplay_update, and_then, append_temperature, _display_statistics,
    statistics_line, Py.sum, _temperatures. simpl.
  rewrite sum_from_none; [reflexivity |].
  apply elem_of_app. destruct Hnone as [Hin | ->]; [left; exact Hin | right; left].
Qed.

(** X10. A [None] in the history stays and makes the statistics fail for
    good.  A [StatisticsDisplay] updated by a station whose temperature was
    never set (a notification before the first [change_temperature]), or
    updated when the history holds a [None] already, appends the reading and
    raises [TypeError]; and after any further run of client calls, every
    update of any [StatisticsDisplay] by any station raises [TypeError]
    again. *)
Theorem none_poisons_statistics
    (class_of : ObserverId -> ObserverClass) (fuel : nat) (cs : list Call)
    (o : ObserverId) (s : StationId) (w : World) :
  None ∈ _temperatures o w \/ temperature s w = None ->
  fst (StatisticsDisplay_update o (WeatherStationRef s) w) = Raised TypeError
  /\ (forall (o' : ObserverId) (s' : StationId),
        fst (StatisticsDisplay_update o' (WeatherStationRef s')
               (snd (run class_of fuel cs
                       (snd (StatisticsDisplay_update o (WeatherStationRef s) w)))))
        = Raised TypeError).
Proof.
  intros Hnone. rewrite (update_with_none_raises o s w Hnone). split; [reflexivity |].
  intros o' s'. rewrite update_with_none_raises; [reflexivity |]. left.
  match goal with
  | |- context [run class_of fuel cs ?w0] => set (w1 := w0)
  end.
  assert (Hin : None ∈ StatisticsDisplay_temperatures w1).
  { subst w1. simpl. apply elem_of_app.
    destruct Hnone as [Hin | Hin]; [left; exact Hin | right; rewrite Hin; left]. }
  destruct (run_history_extends class_of fuel cs w1) as [more Hmore].
  change (None ∈ StatisticsDisplay_temperatures (snd (run class_of fuel cs w1))).
  rewrite Hmore. apply elem_of_app. left. exact Hin.
Qed.

(** A notification before any temperature is set, then the program's three
    temperature changes: the statistics fail each time. *)
Lemma none_poisons_statistics_witness :
  fst (StatisticsDisplay_update statistics_display (WeatherStationRef weather_station)
         (snd (main_setup initial_world))) = Raised TypeError
  /\ fst (StatisticsDisplay_update statistics_display (WeatherStationRef weather_station)
            (snd (run main_classes 3
                    [ChangeTemperature 0 24; ChangeTemperature 0 29; ChangeTemperature 0 15]
                    (snd (StatisticsDisplay_update statistics_display
                            (WeatherStationRef weather_station)
                            (snd (main_setup initial_world)))))))
     = Raised TypeError.
Proof.
  destruct (none_poisons_statistics main_classes 3
              [ChangeTemperature 0 24; ChangeTemperature 0 29; ChangeTemperature 0 15]
              statistics_display weather_station (snd (main_setup initial_world)))
    as [Hfirst Hlater].
  - right. reflexivity.
  - split; [exact Hfirst | apply Hlater].
Defined.

(** ** A pass over the module's own observers *)

Lemma update_of_current_conditions_display class_of o s w :
  class_of o = CurrentConditionsDisplay ->
  printable_value (temperature s w) = true ->
  update class_of o (WeatherStationRef s) w
  = (Returned,
     mkWorld (WeatherStation_observers w) (instance_temperature w)
             (StatisticsDisplay_temperatures w)
             (stdout w ++ [CurrentTemperature (temperature s w)])
             (calls w ++ [(o, WeatherStationRef s)])).
Proof.
  intros Hclass Hfits. unfold update, and_then, log_call, dispatch_update. simpl.
  rewrite Hclass. simpl. unfold print. simpl.
  change (temperature s _) with (temperature s w). rewrite Hfits. reflexivity.
Qed.

Lemma update_of_statistics_display class_of o s w :
  class_of o = StatisticsDisplay ->
  update class_of o (WeatherStationRef s) w
  = match statistics_line (StatisticsDisplay_temperatures w ++ [temperature s w]) with
    | Ok l =>
        if printable l then
          (Returned,
           mkWorld (WeatherStation_observers w) (instance_temperature w)
                   (StatisticsDisplay_temperatures w ++ [temperature s w])
                   (stdout w ++ [l]) (calls w ++ [(o, WeatherStationRef s)]))
        else
          (Raised ValueError,
           mkWorld (WeatherStation_observers w) (instance_temperature w)
                   (StatisticsDisplay_temperatures w ++ [temperature s w])
                   (stdout w) (calls w ++ [(o, WeatherStationRef s)]))
    | Err e =>
        (Raised e,
         mkWorld (WeatherStation_observers w) (instance_temperature w)
                 (StatisticsDisplay_temperatures w ++ [temperature s w])
                 (stdout w) (calls w ++ [(o, WeatherStationRef s)]))
    end.
Proof.
  intros Hclass. unfold update, and_then, log_call, dispatch_update. simpl.
  rewrite Hclass. simpl.
  unfold and_then, append_temperature, _display_statistics, _temperatures, temperature,
    _temperature. simpl.
  match goal with
  | |- context [statistics_line ?l] => destruct (statistics_line l) as [l' | e]
  end; [| reflexivity].
  unfold print. destruct (printable l'); reflexivity.
Qed.

Lemma display_loop_outcomes class_of s t : forall fuel i w,
  Py.fits t = true ->
  instance_temperature w !! s = Some t ->
  Forall (fun o => is_display (class_of o) = true) (drop i (_observers s w)) ->
  (length (drop i (_observers s w)) < fuel)%nat ->
  fst (notify_loop class_of fuel s i w) = Returned
  \/ fst (notify_loop class_of fuel s i w) = Raised OverflowError
  \/ (fst (notify_loop class_of fuel s i w) = Raised TypeError
      /\ None ∈ StatisticsDisplay_temperatures w)
  \/ (fst (notify_loop class_of fuel s i w) = Raised ValueError
      /\ exists z, Some z ∈ StatisticsDisplay_temperatures w /\ Py.fits z = false).
Proof.
  induction fuel as [| fuel IH]; intros i w Hfits Htemp Hdisplays Hfuel; [lia |].
  simpl. destruct (_observers s w !! i) as [o |] eqn:Hlookup; [| left; reflexivity].
  rewrite (drop_S _ _ _ Hlookup) in Hdisplays, Hfuel.
  apply Forall_cons in Hdisplays as [Ho Hrest]. simpl in Hfuel.
  assert (Ht : temperature s w = Some t).
  { unfold temperature, _temperature. rewrite Htemp. reflexivity. }
  assert (Hold : forall z, Some z ∈ StatisticsDisplay_temperatures w ++ [Some t] ->
                           Py.fits z = false -> Some z ∈ StatisticsDisplay_temperatures w).
  { intros z Hin Hz. apply elem_of_app in Hin as [Hin | Hin]; [exact Hin |].
    apply list_elem_of_singleton in Hin. injection Hin as ->. congruence. }
  destruct (class_of o) as [| | body] eqn:Hclass; [| | discriminate Ho].
  - rewrite (update_of_current_conditions_display class_of o s w Hclass)
      by (rewrite Ht; exact Hfits).
    match goal with
    | |- context [notify_loop class_of fuel s (S i) ?w1] =>
        exact (IH (S i) w1 Hfits Htemp Hrest ltac:(unfold _observers in *; simpl in *; lia))
    end.
  - rewrite (update_of_statistics_display class_of o s w Hclass), Ht.
    destruct (statistics_line_cases (StatisticsDisplay_temperatures w ++ [Some t]))
      as [[Hnil _] | [[Hin Hres] | (_ & Hnot & [Hres | Hres])]].
    + apply app_eq_nil in Hnil as [_ Hnil]. discriminate Hnil.
    + rewrite Hres. simpl. right. right. left. split; [reflexivity |].
      apply elem_of_app in Hin as [Hin | Hin]; [exact Hin |].
      apply list_elem_of_singleton in Hin. discriminate Hin.
    + rewrite Hres. simpl. right. left. reflexivity.
    + destruct Hres as (avg & mx & mn & Hres & Hmx & Hmn & _). rewrite Hres. simpl.
      destruct (Py.fits mx) eqn:Hfmx; [destruct (Py.fits mn) eqn:Hfmn |]; simpl.
      * match goal with
        | |- context [notify_loop class_of fuel s (S i) ?w1] =>
            destruct (IH (S i) w1) as [Hst | [Hst | [[Hst Hin] | (Hst & z & Hin & Hz)]]]
        end; try assumption; try (unfold _observers in *; simpl in *; lia);
          rewrite Hst; auto.
        -- exfalso. apply Hnot. exact Hin.
        -- right. right. right. split; [reflexivity |]. exists z.
           split; [apply Hold; assumption | exact Hz].
      * right. right. right. split; [reflexivity |]. exists mn.
        split; [apply Hold; assumption | exact Hfmn].
      * right. right. right. split; [reflexivity |]. exists mx.
        split; [apply Hold; assumption | exact Hfmx].
Qed.

(** X11. With only [CurrentConditionsDisplay] and [StatisticsDisplay]
    observers attached, [change_temperature] always ends, in one of four
    ways: it returns; or it raises [OverflowError] (the average of the
    history is beyond the largest float); or it raises [TypeError], and then
    the history held a [None] before the call; or it raises [ValueError],
    and then the new value, or a number that the history held before the
    call, has more than 4300 digits.  It raises nothing else. *)
Theorem change_temperature_outcomes
    (class_of : ObserverId -> ObserverClass) (fuel : nat) (s : StationId) (t : Z)
    (w : World) :
  Forall (fun o => is_display (class_of o) = true) (_observers s w) ->
  (length (_observers s w) < fuel)%nat ->
  fst (change_temperature class_of fuel s t w) = Returned
  \/ fst (change_temperature class_of fuel s t w) = Raised OverflowError
  \/ (fst (change_temperature class_of fuel s t w) = Raised TypeError
      /\ None ∈ StatisticsDisplay_temperatures w)
  \/ (fst (change_temperature class_of fuel s t w) = Raised ValueError
      /\ (Py.fits t = false
          \/ exists z, Some z ∈ StatisticsDisplay_temperatures w /\ Py.fits z = false)).
Proof.
  intros Hdisplays Hfuel. destruct (Py.fits t) eqn:Hfits.
  - rewrite (change_temperature_loop class_of fuel s t w Hfits).
    pose proof (display_loop_outcomes class_of s t fuel 0 (snd (before_loop s t w)) Hfits)
      as Hloop.
    rewrite (before_loop_world s t w Hfits) in Hloop |- *.
    destruct Hloop as [Hst | [Hst | [Hst | [Hst Hlong]]]].
    + apply lookup_insert_eq.
    + rewrite drop_0. exact Hdisplays.
    + rewrite drop_0. exact Hfuel.
    + left. exact Hst.
    + right. left. exact Hst.
    + right. right. left. exact Hst.
    + right. right. right. split; [exact Hst | right; exact Hlong].
  - rewrite (change_temperature_too_long class_of fuel s t w Hfits).
    right. right. right. split; [reflexivity | left; reflexivity].
Qed.

(** The program's first temperature change returns. *)
Lemma change_temperature_outcomes_witness :
  fst (change_temperature main_classes 3 weather_station 24
         (snd (main_setup initial_world))) = Returned.
Proof.
  destruct (change_temperature_outcomes main_classes 3 weather_station 24
              (snd (main_setup initial_world)))
    as [Hst | [Hst | [[Hst _] | [Hst _]]]].
  - repeat constructor.
  - simpl. lia.
  - exact Hst.
  - vm_compute in Hst. discriminate Hst.
  - vm_compute in Hst. discriminate Hst.
  - vm_compute in Hst. discriminate Hst.
Defined.

(** ** Temperatures are per station *)

(** X12. The temperature of a station is changed by [change_temperature] on
    that station and by nothing else: [add_observer], [remove_observer] and
    [notify_observers] on any station, and [change_temperature] on another
    station, leave it as it is, however the call ends and whatever the
    observers notified print, attach, detach or raise. *)
Theorem temperature_untouched_by_other_calls
    (class_of : ObserverId -> ObserverClass) (fuel : nat) (c : Call)
    (s : StationId) (w : World) :
  assigned s c = None ->
  temperature s (snd (call class_of fuel c w)) = temperature s w.
Proof.
  intros Hc. rewrite call_temperature. unfold accepted. rewrite Hc.
  destruct (call_fits c); reflexivity.
Qed.

(** A change on station [1] with the program's observers attached (the
    registry is shared, so they are notified): station [0] keeps its
    temperature. *)
Lemma temperature_untouched_by_other_calls_witness :
  temperature 0%nat
    (snd (call main_classes 3 (ChangeTemperature 1%nat 30)
            (snd (run main_classes 3
                    [AddObserver 0 1; AddObserver 0 2; ChangeTemperature 0 24]
                    initial_world))))
  = Some 24.
Proof.
  rewrite (temperature_untouched_by_other_calls main_classes 3
             (ChangeTemperature 1%nat 30) 0%nat).
  - vm_compute. reflexivity.
  - reflexivity.
Defined.

(** ** Passes that do not end, and passes that skip *)

(** One observer that attaches itself again is enough for a pass without
    end. *)
Lemma self_adding_pass_never_ends_witness :
  fst (change_temperature self_adding_classes 1000 weather_station 24
         (snd (add_observer weather_station 1%nat initial_world)))
  = OutOfFuel.
Proof.
  apply (self_adding_pass_never_ends 1000 weather_station 24
           (snd (add_observer weather_station 1%nat initial_world))).
  - reflexivity.
  - discriminate.
Defined.

(** The rounds of the loop over observers that return and leave the registry
    as it is can be taken one by one. *)
Lemma notify_loop_prefix class_of s : forall pre fuel i w w1 rest,
  drop i (_observers s w) = pre ++ rest ->
  Forall (fun p => registry_neutral (class_of p) = true) pre ->
  update_each class_of pre (WeatherStationRef s) w = (Returned, w1) ->
  notify_loop class_of (length pre + fuel) s i w
  = notify_loop class_of fuel s (i + length pre) w1
  /\ _observers s w1 = _observers s w.
Proof.
  induction pre as [| p pre IH]; intros fuel i w w1 rest Hdrop Hneutral Heach; simpl in *.
  - injection Heach as <-. rewrite Nat.add_0_r. split; reflexivity.
  - apply lookup_drop_head in Hdrop as [Hlookup Hdrop]. rewrite Hlookup.
    apply Forall_cons in Hneutral as [Hp Hneutral].
    unfold and_then in Heach.
    pose proof (update_registry class_of p (WeatherStationRef s) Hp w) as Hreg.
    destruct (update class_of p (WeatherStationRef s) w) as [[| e' |] wp]; simpl in *;
      try discriminate.
    destruct (IH fuel (S i) wp w1 rest) as [Hloop Hsame]; try assumption.
    + unfold _observers in *. rewrite Hreg. exact Hdrop.
    + rewrite Hloop. replace (i + S (length pre))%nat with (S i + length pre)%nat by lia.
      split; [reflexivity |]. unfold _observers in *. congruence.
Qed.

Lemma update_of_self_remover class_of o s w l1 l2 :
  class_of o = ClientObserver [DoRemoveObserver o] ->
  _observers s w = l1 ++ o :: l2 ->
  o ∉ l1 ->
  update class_of o (WeatherStationRef s) w
  = (Returned,
     mkWorld (l1 ++ l2) (instance_temperature w) (StatisticsDisplay_temperatures w)
             (stdout w ++ [ObserverRemoved]) (calls w ++ [(o, WeatherStationRef s)])).
Proof.
  intros Hclass Hreg Hnot.
  unfold update, and_then, log_call, dispatch_update. simpl. rewrite Hclass. simpl.
  unfold and_then, remove_observer, and_then, remove_listed_observer, _observers in *. simpl.
  rewrite Hreg, (list_remove_present o l1 l2 Hnot). reflexivity.
Qed.

(** X14. An observer that detaches itself in its [update] makes the pass
    skip the observer attached right after it.  Let the registry be
    [pre ++ o :: next :: post], [o] not in [pre], the [update] of [o] being
    [subject.remove_observer(self)], the observers of [pre] returning, and
    those of [pre] and [post] adding and removing no observers.  Then
    [notify_observers] leaves the registry [pre ++ next :: post] and calls
    [update] on [pre], [o] and then [post] (up to the first one that
    raises): the occurrence of [next] after [o] gets no call. *)
Theorem self_removal_skips_successor
    (class_of : ObserverId -> ObserverClass) (fuel : nat) (s : StationId)
    (w w1 : World) (pre post : list ObserverId) (o next : ObserverId) :
  _observers s w = pre ++ o :: next :: post ->
  o ∉ pre ->
  class_of o = ClientObserver [DoRemoveObserver o] ->
  Forall (fun p => registry_neutral (class_of p) = true) pre ->
  Forall (fun p => registry_neutral (class_of p) = true) post ->
  (length (pre ++ o :: next :: post) < fuel)%nat ->
  update_each class_of pre (WeatherStationRef s) (snd (print Notifying w)) = (Returned, w1) ->
  _observers s (snd (notify_observers class_of fuel s w)) = pre ++ next :: post
  /\ ((fst (notify_observers class_of fuel s w) = Returned
       /\ calls (snd (notify_observers class_of fuel s w))
          = calls w ++ updates_of s (pre ++ o :: post))
      \/ (exists e k,
            fst (notify_observers class_of fuel s w) = Raised e
            /\ (k < length post)%nat
            /\ calls (snd (notify_observers class_of fuel s w))
               = calls w ++ updates_of s (pre ++ o :: take (S k) post))).
Proof.
  intros Hreg Hnot Hclass Hpre Hpost Hfuel Heach.
  change (notify_observers class_of fuel s w)
    with (notify_loop class_of fuel s 0 (snd (print Notifying w))).
  rewrite length_app in Hfuel. simpl in Hfuel.
  destruct (Nat.le_exists_sub (length pre + 1) fuel) as (f & Hf & _); [lia |].
  replace fuel with (length pre + S f)%nat by lia.
  destruct (notify_loop_prefix class_of s pre (S f) 0 (snd (print Notifying w)) w1
              (o :: next :: post)) as [Hloop Hsame]; try assumption.
  rewrite Hloop. simpl.
  assert (Hreg1 : _observers s w1 = pre ++ o :: next :: post).
  { rewrite Hsame. exact Hreg. }
  rewrite Hreg1, list_lookup_middle by reflexivity.
  rewrite (update_of_self_remover class_of o s w1 pre (next :: post) Hclass Hreg1 Hnot).
  pose proof (update_each_calls class_of _ _ _ _ Heach) as Hcalls1. simpl in Hcalls1.
  assert (Hdrop : drop (S (length pre)) (pre ++ next :: post) = post).
  { replace (pre ++ next :: post) with ((pre ++ [next]) ++ post)
      by (rewrite <- app_assoc; reflexivity).
    apply drop_app_length'. rewrite length_app. simpl. lia. }
  match goal with
  | |- context [notify_loop class_of f s (S (length pre)) ?w2] =>
      assert (Hobs2 : _observers s w2 = pre ++ next :: post) by reflexivity;
      assert (Hcalls2 : calls w2 = calls w1 ++ [(o, WeatherStationRef s)]) by reflexivity;
      generalize dependent w2
  end.
  intros w2 Hobs2 Hcalls2.
  destruct (notify_loop_in_order class_of s f (S (length pre)) w2) as (Hreg2 & Hcases).
  - rewrite Hobs2, Hdrop. exact Hpost.
  - rewrite Hobs2, Hdrop. lia.
  - split; [congruence |].
    rewrite Hobs2, Hdrop, Hcalls2, Hcalls1 in Hcases.
    destruct Hcases as [[Hst Hc] | (e & k & Hst & Hk & Hc)].
    + left. split; [exact Hst |]. rewrite Hc. unfold updates_of.
      rewrite map_app, <- !app_assoc. reflexivity.
    + right. exists e, k. split; [exact Hst |]. split; [exact Hk |].
      rewrite Hc. unfold updates_of. rewrite map_app, <- !app_assoc. reflexivity.
Qed.

(** Three observers, the one in the middle detaching itself. *)
Lemma self_removal_skips_successor_witness :
  calls (snd (notify_observers self_removing_classes 4 weather_station
                (snd (add_observers weather_station [1%nat; 2%nat; 3%nat] initial_world))))
  = updates_of weather_station [1%nat; 2%nat].
Proof.
  destruct (self_removal_skips_successor self_removing_classes 4 weather_station
              (snd (add_observers weather_station [1%nat; 2%nat; 3%nat] initial_world))
              (snd (update_each self_removing_classes [1%nat]
                      (WeatherStationRef weather_station)
                      (snd (print Notifying
                              (snd (add_observers weather_station [1%nat; 2%nat; 3%nat]
                                      initial_world))))))
              [1%nat] [] 2%nat 3%nat)
    as (_ & [[_ Hcalls] | (e & k & _ & Hk & _)]).
  - reflexivity.
  - intros Hin. apply list_elem_of_In in Hin. simpl in Hin.
    destruct Hin as [Heq | []]. discriminate Heq.
  - reflexivity.
  - repeat constructor.
  - constructor.
  - simpl. lia.
  - reflexivity.
  - exact Hcalls.
  - simpl in Hk. lia.
Defined.

(** ** What a pass over the module's own observers prints and records *)

Lemma display_loop_returned class_of s t : forall fuel i w w',
  Py.fits t = true ->
  instance_temperature w !! s = Some t ->
  Forall (fun o => is_display (class_of o) = true) (drop i (_observers s w)) ->
  notify_loop class_of fuel s i w = (Returned, w') ->
  (exists lines,
     stdout w' = stdout w ++ lines
     /\ Forall2 (printed_by class_of t) (drop i (_observers s w)) lines)
  /\ StatisticsDisplay_temperatures w'
     = StatisticsDisplay_temperatures w
       ++ replicate (statistics_among class_of (drop i (_observers s w))) (Some t).
Proof.
  induction fuel as [| fuel IH]; intros i w w' Hfits Htemp Hdisplays Hloop;
    [discriminate |].
  simpl in Hloop. destruct (_observers s w !! i) as [o |] eqn:Hlookup.
  - rewrite (drop_S _ _ _ Hlookup) in Hdisplays |- *.
    apply Forall_cons in Hdisplays as [Ho Hrest].
    assert (Ht : temperature s w = Some t).
    { unfold temperature, _temperature. rewrite Htemp. reflexivity. }
    unfold statistics_among. rewrite filter_cons.
    destruct (class_of o) as [| | body] eqn:Hclass; [| | discriminate Ho].
    + rewrite (update_of_current_conditions_display class_of o s w Hclass), Ht in Hloop
        by (rewrite Ht; exact Hfits).
      apply IH in Hloop as [(lines & Hout & Hlines) Hhist]; try assumption.
      simpl in *. split.
      * exists (CurrentTemperature (Some t) :: lines).
        rewrite Hout, <- app_assoc. split; [reflexivity |].
        constructor; [| exact Hlines]. unfold printed_by. rewrite Hclass. reflexivity.
      * exact Hhist.
    + rewrite (update_of_statistics_display class_of o s w Hclass), Ht in Hloop.
      destruct (statistics_line (StatisticsDisplay_temperatures w ++ [Some t]))
        as [l | e] eqn:Hline; [| discriminate].
      destruct (printable l); [| discriminate].
      apply IH in Hloop as [(lines & Hout & Hlines) Hhist]; try assumption.
      simpl in *. split.
      * exists (l :: lines). rewrite Hout, <- app_assoc. split; [reflexivity |].
        constructor; [| exact Hlines]. unfold printed_by. rewrite Hclass.
        apply (statistics_line_shape _ _ Hline).
      * rewrite Hhist, <- app_assoc. reflexivity.
  - injection Hloop as <-. apply lookup_ge_None in Hlookup.
    rewrite (drop_ge _ _ Hlookup). split.
    + exists []. rewrite app_nil_r. split; [reflexivity | constructor].
    + simpl. rewrite app_nil_r. reflexivity.
Qed.

(** X15. With only [CurrentConditionsDisplay] and [StatisticsDisplay]
    observers attached, a [change_temperature(t)] that returns has printed,
    after its own two lines, exactly one line per entry of the registry, in
    the order of the registry: the temperature [t] for a display, a
    statistics line for a [StatisticsDisplay]. *)
Theorem change_temperature_prints_one_line_per_observer
    (class_of : ObserverId -> ObserverClass) (fuel : nat) (s : StationId) (t : Z)
    (w : World) :
  Forall (fun o => is_display (class_of o) = true) (_observers s w) ->
  fst (change_temperature class_of fuel s t w) = Returned ->
  exists lines,
    stdout (snd (change_temperature class_of fuel s t w))
    = stdout w ++ [TemperatureChanged t; Notifying] ++ lines
    /\ Forall2 (printed_by class_of t) (_observers s w) lines.
Proof.
  intros Hdisplays Hst.
  destruct (Py.fits t) eqn:Hfits;
    [| rewrite (change_temperature_too_long class_of fuel s t w Hfits) in Hst;
       discriminate Hst].
  rewrite (change_temperature_loop class_of fuel s t w Hfits) in Hst |- *.
  destruct (notify_loop class_of fuel s 0 (snd (before_loop s t w))) as [st w'] eqn:Hloop.
  simpl in Hst. subst st. rewrite (before_loop_world s t w Hfits) in Hloop.
  apply (display_loop_returned class_of s t) in Hloop as [(lines & Hout & Hlines) _].
  - exists lines. simpl in *. rewrite Hout, <- app_assoc. split; [reflexivity | exact Hlines].
  - exact Hfits.
  - apply lookup_insert_eq.
  - exact Hdisplays.
Qed.

Lemma change_temperature_prints_one_line_per_observer_witness :
  exists lines,
    stdout (snd (change_temperature main_classes 3 weather_station 24
                   (snd (main_setup initial_world))))
    = stdout (snd (main_setup initial_world))
      ++ [TemperatureChanged 24; Notifying] ++ lines
    /\ Forall2 (printed_by main_classes 24)
         [current_conditions_display; statistics_display] lines.
Proof.
  apply (change_temperature_prints_one_line_per_observer main_classes 3 weather_station 24
           (snd (main_setup initial_world))).
  - repeat constructor.
  - reflexivity.
Defined.

(** X16. With only [CurrentConditionsDisplay] and [StatisticsDisplay]
    observers attached, a [change_temperature(t)] that returns has appended
    [t] to the history once for every [StatisticsDisplay] entry of the
    registry: with two of them attached, each change is recorded twice in
    the history both of them average over. *)
Theorem change_temperature_records_once_per_statistics_display
    (class_of : ObserverId -> ObserverClass) (fuel : nat) (s : StationId) (t : Z)
    (w : World) :
  Forall (fun o => is_display (class_of o) = true) (_observers s w) ->
  fst (change_temperature class_of fuel s t w) = Returned ->
  StatisticsDisplay_temperatures (snd (change_temperature class_of fuel s t w))
  = StatisticsDisplay_temperatures w
    ++ replicate (statistics_among class_of (_observers s w)) (Some t).
Proof.
  intros Hdisplays Hst.
  destruct (Py.fits t) eqn:Hfits;
    [| rewrite (change_temperature_too_long class_of fuel s t w Hfits) in Hst;
       discriminate Hst].
  rewrite (change_temperature_loop class_of fuel s t w Hfits) in Hst |- *.
  destruct (notify_loop class_of fuel s 0 (snd (before_loop s t w))) as [st w'] eqn:Hloop.
  simpl in Hst. subst st. rewrite (before_loop_world s t w Hfits) in Hloop.
  apply (display_loop_returned class_of s t) in Hloop as [_ Hhist].
  - exact Hhist.
  - exact Hfits.
  - apply lookup_insert_eq.
  - exact Hdisplays.
Qed.

Lemma change_temperature_records_once_per_statistics_display_witness :
  StatisticsDisplay_temperatures
    (snd (change_temperature main_classes 4 weather_station 24
            (snd (add_observers weather_station [2%nat; 1%nat; 4%nat] initial_world))))
  = [Some 24; Some 24].
Proof.
  apply (change_temperature_records_once_per_statistics_display main_classes 4
           weather_station 24
           (snd (add_observers weather_station [2%nat; 1%nat; 4%nat] initial_world))).
  - repeat constructor.
  - reflexivity.
Defined.

(** ** The program *)

(** X17. The program of lines 161-180 runs to its end without an exception
    and prints eighteen lines: after the display has been detached (line
    179), the fourth temperature change updates the statistics only, which
    show the average 89 / 4 = 22.25 as 22.2 (the tie goes to the even
    digit), the maximum 29 and the minimum 15. *)
Theorem main_program_output (extra : nat) :
  fst (main (3 + extra) initial_world) = Returned
  /\ stdout (snd (main (3 + extra) initial_world))
     = [ObserverAdded; ObserverAdded;
        TemperatureChanged 24; Notifying;
        CurrentTemperature (Some 24); Statistics "24.0" 24 24;
        TemperatureChanged 29; Notifying;
        CurrentTemperature (Some 29); Statistics "26.5" 29 24;
        TemperatureChanged 15; Notifying;
        CurrentTemperature (Some 15); Statistics "22.7" 29 15;
        ObserverRemoved;
        TemperatureChanged 21; Notifying;
        Statistics "22.2" 29 15]
  /\ _observers weather_station (snd (main (3 + extra) initial_world))
     = [statistics_display]
  /\ temperature weather_station (snd (main (3 + extra) initial_world)) = Some 21
  /\ _temperatures statistics_display (snd (main (3 + extra) initial_world))
     = [Some 24; Some 29; Some 15; Some 21]
  /\ notifications_received current_conditions_display
       (snd (main (3 + extra) initial_world)) = 3%nat
  /\ notifications_received statistics_display
       (snd (main (3 + extra) initial_world)) = 4%nat.
Proof. vm_compute. repeat split. Qed.

(** ** The average is a finite float *)

Lemma shr_1_nonneg (mrs : shr_record) :
  0 <= shr_m mrs -> 0 <= shr_m (shr_1 mrs).
Proof.
  destruct mrs as [m r s]. destruct m as [| p | p]; simpl; intros Hm;
    [lia | destruct p; simpl; lia | lia].
Qed.

Lemma iter_shr_1_nonneg (p : positive) : forall mrs,
  0 <= shr_m mrs -> 0 <= shr_m (iter_pos shr_1 p mrs).
Proof.
  induction p as [p IH | p IH |]; intros mrs Hm; simpl.
  - apply IH, IH, shr_1_nonneg, Hm.
  - apply IH, IH, Hm.
  - apply shr_1_nonneg, Hm.
Qed.

Lemma shr_fexp_nonneg (m e : Z) (l : location) :
  0 <= m -> 0 <= shr_m (fst (shr_fexp Py.prec Py.emax m e l)).
Proof.
  intros Hm. unfold shr_fexp, shr.
  assert (Hrec : 0 <= shr_m (shr_record_of_loc m l))
    by (destruct l as [| []]; exact Hm).
  destruct (fexp Py.prec Py.emax (Zdigits2 m + e) - e); simpl;
    [exact Hrec | apply iter_shr_1_nonneg, Hrec | exact Hrec].
Qed.

Lemma round_nearest_even_nonneg (m : Z) (l : location) :
  0 <= m -> 0 <= round_nearest_even m l.
Proof.
  intros Hm. destruct l as [| []]; simpl; try lia.
  destruct (Z.even m); lia.
Qed.

Lemma binary_round_aux_not_nan (sx : bool) (mx ex : Z) (lx : location) :
  0 <= mx -> binary_round_aux Py.prec Py.emax sx mx ex lx <> S754_nan.
Proof.
  intros Hm. unfold binary_round_aux.
  pose proof (shr_fexp_nonneg mx ex lx Hm) as H1.
  destruct (shr_fexp Py.prec Py.emax mx ex lx) as [mrs' e']. simpl in H1.
  pose proof (shr_fexp_nonneg
                (round_nearest_even (shr_m mrs') (loc_of_shr_record mrs')) e' loc_Exact
                (round_nearest_even_nonneg _ _ H1)) as H2.
  destruct (shr_fexp Py.prec Py.emax
              (round_nearest_even (shr_m mrs') (loc_of_shr_record mrs')) e' loc_Exact)
    as [mrs'' e'']. simpl in H2.
  destruct (shr_m mrs'') as [| p | p]; try discriminate; [| lia].
  destruct (e'' <=? Py.emax - Py.prec); discriminate.
Qed.

Lemma SFdiv_core_binary_nonneg (m1 m2 : Z) :
  0 <= m1 -> 0 < m2 ->
  0 <= fst (fst (SFdiv_core_binary Py.prec Py.emax m1 0 m2 0)).
Proof.
  intros H1 H2. unfold SFdiv_core_binary.
  set (sh := 0 - 0 - Z.min (fexp Py.prec Py.emax (Zdigits2 m1 + 0 - (Zdigits2 m2 + 0))) (0 - 0)).
  set (m' := match sh with
             | Z0 => m1
             | Zpos _ => Z.shiftl m1 sh
             | Zneg _ => 0
             end).
  assert (Hm' : 0 <= m').
  { subst m'. destruct sh; [exact H1 | apply Z.shiftl_nonneg; exact H1 | lia]. }
  pose proof (Z.div_pos m' m2 Hm' H2) as Hq. unfold Z.div in Hq.
  destruct (Z.div_eucl m' m2) as [q r]. exact Hq.
Qed.

(** X18. The average of line 154 is always a finite float: the division of
    the sum by the length gives a zero or a finite number, never NaN and
    never an infinity (a quotient beyond the largest float is an
    [OverflowError] instead). *)
Theorem average_is_finite (a b : Z) (f : spec_float) :
  Py.true_divide a b = Ok f ->
  (exists sign, f = S754_zero sign) \/ (exists sign m e, f = S754_finite sign m e).
Proof.
  unfold Py.true_divide. intros Hdiv.
  destruct a as [| pa | pa], b as [| pb | pb]; try discriminate;
    try (injection Hdiv as <-; left; eexists; reflexivity);
    match type of Hdiv with
    | context [SFdiv_core_binary ?p ?e ?m1 0 ?m2 0] =>
        pose proof (SFdiv_core_binary_nonneg m1 m2 ltac:(simpl; lia) ltac:(simpl; lia)) as Hq;
        destruct (SFdiv_core_binary p e m1 0 m2 0) as [[mz ez] lz]; simpl in Hq
    end;
    match type of Hdiv with
    | context [binary_round_aux ?p ?e ?s ?m ?x ?l] =>
        pose proof (binary_round_aux_not_nan s m x l Hq) as Hnan;
        destruct (binary_round_aux p e s m x l) as [sg | sg | | sg mm ee];
          try discriminate; try congruence;
          injection Hdiv as <-;
          first [left; eexists; reflexivity | right; do 3 eexists; reflexivity]
    end.
Qed.

Lemma average_is_finite_witness :
  (exists sign, S754_finite false 6380099472108203 (-48) = S754_zero sign)
  \/ (exists sign m e, S754_finite false 6380099472108203 (-48) = S754_finite sign m e).
Proof.
  apply (average_is_finite 68 3 (S754_finite false 6380099472108203 (-48))).
  vm_compute. reflexivity.
Defined.

(** ** An update that raises *)

(** X19. Let the registry be [pre ++ o :: post] when [change_temperature]
    is called with a value of at most 4300 digits, let the calls of
    [update] on the observers of [pre] return without adding or removing
    observers, and let the call of [update] on [o] raise [e].  Then
    [change_temperature] raises [e], in the world the raising call left: the
    calls of [update] made are those for [pre] and [o], in order, none for
    [post] after them; and the temperature of the station is the new
    one. *)
Theorem fault_ends_the_pass
    (class_of : ObserverId -> ObserverClass) (fuel : nat) (s : StationId) (t : Z)
    (w w1 w2 : World) (pre post : list ObserverId) (o : ObserverId) (e : Exn) :
  Py.fits t = true ->
  _observers s w = pre ++ o :: post ->
  Forall (fun p => registry_neutral (class_of p) = true) pre ->
  (length pre < fuel)%nat ->
  update_each class_of pre (WeatherStationRef s) (snd (before_loop s t w)) = (Returned, w1) ->
  update class_of o (WeatherStationRef s) w1 = (Raised e, w2) ->
  change_temperature class_of fuel s t w = (Raised e, w2)
  /\ calls w2 = calls w ++ updates_of s (pre ++ [o])
  /\ temperature s w2 = Some t
  /\ _temperature s w2 = Some t.
Proof.
  intros Hfits Hreg Hneutral Hfuel Heach Hfault.
  assert (Hout : change_temperature class_of fuel s t w = (Raised e, w2)).
  { rewrite (change_temperature_loop class_of fuel s t w Hfits).
    apply (notify_loop_fault class_of s o post e w2 pre fuel 0 _ w1); try assumption.
    rewrite (before_loop_world s t w Hfits), drop_0. exact Hreg. }
  split; [exact Hout |]. split; [| split].
  - pose proof (update_calls class_of o (WeatherStationRef s) w1) as Hcalls.
    rewrite Hfault in Hcalls. simpl in Hcalls.
    rewrite Hcalls, (update_each_calls class_of _ _ _ _ Heach),
      (before_loop_world s t w Hfits).
    simpl. unfold updates_of. rewrite map_app, <- app_assoc. reflexivity.
  - pose proof (change_temperature_sets class_of fuel s t w Hfits) as Hset.
    rewrite Hout in Hset. exact Hset.
  - pose proof (change_temperature_sets class_of fuel s t w Hfits) as Hset.
    rewrite Hout in Hset. exact Hset.
Qed.

(** A display, the statistics and a second display attached in that order,
    and a temperature whose average does not fit a float: the first display
    is notified, the statistics raise, the second display is not notified. *)
Lemma fault_ends_the_pass_witness :
  fst (change_temperature main_classes 2 weather_station (2 ^ 1024)
         (snd (add_observers weather_station [1%nat; 2%nat; 3%nat] initial_world)))
  = Raised OverflowError
  /\ calls (snd (change_temperature main_classes 2 weather_station (2 ^ 1024)
                   (snd (add_observers weather_station [1%nat; 2%nat; 3%nat] initial_world))))
     = updates_of weather_station [1%nat; 2%nat]
  /\ temperature weather_station
       (snd (change_temperature main_classes 2 weather_station (2 ^ 1024)
               (snd (add_observers weather_station [1%nat; 2%nat; 3%nat] initial_world))))
     = Some (2 ^ 1024).
Proof.
  set (w := snd (add_observers weather_station [1%nat; 2%nat; 3%nat] initial_world)).
  set (w1 := snd (update_each main_classes [1%nat] (WeatherStationRef weather_station)
                    (snd (before_loop weather_station (2 ^ 1024) w)))).
  set (w2 := snd (update main_classes 2%nat (WeatherStationRef weather_station) w1)).
  destruct (fault_ends_the_pass main_classes 2 weather_station (2 ^ 1024) w w1 w2
              [1%nat] [3%nat] 2%nat OverflowError) as (Hout & Hcalls & Htemp & _).
  - vm_compute. reflexivity.
  - reflexivity.
  - repeat constructor.
  - simpl. lia.
  - vm_compute. reflexivity.
  - vm_compute. reflexivity.
  - rewrite Hout. simpl. split; [reflexivity |]. split; [| exact Htemp].
    rewrite Hcalls. reflexivity.
Defined.
